(** * metvae: the linear VAE on ILR coordinates ([metvae/models/linear_vae.py])

    A shallow embedding of the classes [LinearVAE] and [LinearBatchVAE].

    Conventions of the embedding.
    - Scalars are real numbers ([R]); the rounding of 32-bit floats is not
      represented, so every equation below is an equation of the exact
      arithmetic the code denotes.
    - A tensor is a shape together with an indexing function; indices outside
      the shape carry no meaning and no statement below reads them.
    - Python exceptions are values of [exn]; an operation that may raise
      returns a [result].
    - A method of the module runs in the monad [M State]: the state holds the
      module object ([self]) and the generator behind [torch.normal]. *)

From Stdlib Require Import Reals Lra Lia List String Arith ZArith Bool.
Import ListNotations.
Open Scope R_scope.

(** ** Exceptions and results *)

Inductive exn : Type :=
| ValueError (msg : string)
| AttributeError (msg : string)
| RuntimeError (msg : string)
| IndexError (msg : string)
| Unmodelled (what : string).
(* [Unmodelled] is not a Python exception: it marks library behaviour outside
   the fragment embedded here (operands of rank above two). *)

Inductive result (A : Type) : Type :=
| Ok (a : A)
| Raise (e : exn).
Arguments Ok {A} a.
Arguments Raise {A} e.

Definition rbind {A B} (r : result A) (k : A -> result B) : result B :=
  match r with
  | Ok a => k a
  | Raise e => Raise e
  end.

(** ** Tensors *)

Record Tensor : Type := mkTensor { shape : list nat; item : list nat -> R }.

Definition scalar (v : R) : Tensor := mkTensor [] (fun _ => v).

Definition tensor1 (n : nat) (f : nat -> R) : Tensor :=
  mkTensor [n] (fun idx => match idx with [i] => f i | _ => 0 end).

Definition tensor2 (n m : nat) (f : nat -> nat -> R) : Tensor :=
  mkTensor [n; m] (fun idx => match idx with [i; j] => f i j | _ => 0 end).

(** The value of a 0-d tensor, and entries of 1-d and 2-d tensors. *)
Definition value (t : Tensor) : R := item t [].
Definition at1 (t : Tensor) (i : nat) : R := item t [i].
Definition at2 (t : Tensor) (i j : nat) : R := item t [i; j].

Fixpoint big_sum (n : nat) (f : nat -> R) : R :=
  match n with
  | O => 0
  | S k => big_sum k f + f k
  end.

Definition numel (s : list nat) : nat := fold_right Nat.mul 1%nat s.

(** Element-wise operation with a Python number, or of one tensor. *)
Definition tmap (g : R -> R) (t : Tensor) : Tensor :=
  mkTensor (shape t) (fun idx => g (item t idx)).

(** Broadcasting, on shapes aligned at their last dimension. *)
Fixpoint broadcast_rev (a b : list nat) : option (list nat) :=
  match a, b with
  | [], _ => Some b
  | _, [] => Some a
  | x :: a', y :: b' =>
      match broadcast_rev a' b' with
      | Some s =>
          if (x =? y)%nat then Some (x :: s)
          else if (x =? 1)%nat then Some (y :: s)
          else if (y =? 1)%nat then Some (x :: s)
          else None
      | None => None
      end
  end.

Definition broadcast_shapes (a b : list nat) : option (list nat) :=
  option_map (@rev nat) (broadcast_rev (rev a) (rev b)).

(** The index an operand of shape [s] is read at for position [idx] of the
    broadcast result: leading positions are dropped and a dimension of size 1
    is read at 0. *)
Fixpoint expand_rev (s idx : list nat) : list nat :=
  match s, idx with
  | d :: s', i :: idx' => (if (d =? 1)%nat then 0%nat else i) :: expand_rev s' idx'
  | _, _ => []
  end.

Definition expand_index (s idx : list nat) : list nat :=
  rev (expand_rev (rev s) (rev idx)).

Definition binop (g : R -> R -> R) (a b : Tensor) : result Tensor :=
  match broadcast_shapes (shape a) (shape b) with
  | Some s =>
      Ok (mkTensor s (fun idx =>
            g (item a (expand_index (shape a) idx))
              (item b (expand_index (shape b) idx))))
  | None => Raise (RuntimeError "The size of tensor a must match the size of tensor b")
  end.

Definition list_nat_eqb (a b : list nat) : bool :=
  if list_eq_dec Nat.eq_dec a b then true else false.

(** [a -= b], [a += b]: the broadcast shape has to be the shape of [a]. *)
Definition inplace (g : R -> R -> R) (a b : Tensor) : result Tensor :=
  rbind (binop g a b) (fun c =>
    if list_nat_eqb (shape c) (shape a) then Ok c
    else Raise (RuntimeError "output with shape doesn't match the broadcast shape")).

Definition tadd := binop Rplus.
Definition tsub := binop Rminus.
Definition tmul := binop Rmult.
Definition tdiv := binop Rdiv.
Definition tneg := tmap Ropp.
Definition texp := tmap exp.
Definition tlog := tmap ln.

(** [t.t()]: tensors of rank 0 and 1 are returned as they are. *)
Definition t_ (a : Tensor) : result Tensor :=
  match shape a with
  | [] | [_] => Ok a
  | [n; m] => Ok (tensor2 m n (fun i j => item a [j; i]))
  | _ => Raise (RuntimeError "t() expects a tensor with <= 2 dimensions")
  end.

(** [torch.mm]: both operands are matrices. *)
Definition mm (a b : Tensor) : result Tensor :=
  match shape a, shape b with
  | [n; k], [k'; m] =>
      if (k =? k')%nat
      then Ok (tensor2 n m (fun i j => big_sum k (fun l => item a [i; l] * item b [l; j])))
      else Raise (RuntimeError "mat1 and mat2 shapes cannot be multiplied")
  | _, _ => Raise (RuntimeError "mm: operands must be matrices")
  end.

(** [a @ b] on operands of rank at most two. *)
Definition matmul (a b : Tensor) : result Tensor :=
  match shape a, shape b with
  | [], _ | _, [] =>
      Raise (RuntimeError "both arguments to matmul need to be at least 1D")
  | [k], [k'] =>
      if (k =? k')%nat
      then Ok (scalar (big_sum k (fun l => item a [l] * item b [l])))
      else Raise (RuntimeError "inconsistent tensor size")
  | [k], [k'; m] =>
      if (k =? k')%nat
      then Ok (tensor1 m (fun j => big_sum k (fun l => item a [l] * item b [l; j])))
      else Raise (RuntimeError "mat1 and mat2 shapes cannot be multiplied")
  | [n; k], [k'] =>
      if (k =? k')%nat
      then Ok (tensor1 n (fun i => big_sum k (fun l => item a [i; l] * item b [l])))
      else Raise (RuntimeError "size mismatch")
  | [_; _], [_; _] => mm a b
  | _, _ => Raise (Unmodelled "matmul of operands of rank above two")
  end.

(** [t.mean(0)]: the first dimension is averaged away; a 0-d tensor is its own
    mean. *)
Definition mean0 (a : Tensor) : Tensor :=
  match shape a with
  | [] => a
  | n :: s => mkTensor s (fun idx => big_sum n (fun i => item a (i :: idx)) / INR n)
  end.

Fixpoint sum_over (s : list nat) (f : list nat -> R) : R :=
  match s with
  | [] => f []
  | n :: s' => big_sum n (fun i => sum_over s' (fun idx => f (i :: idx)))
  end.

(** [t.sum()]: all entries. *)
Definition tsum (a : Tensor) : Tensor := scalar (sum_over (shape a) (item a)).

(** [t.mean()]: all entries. *)
Definition tmean (a : Tensor) : Tensor :=
  scalar (sum_over (shape a) (item a) / INR (numel (shape a))).

Definition trace (a : Tensor) : result Tensor :=
  match shape a with
  | [n; m] => Ok (scalar (big_sum (Nat.min n m) (fun i => item a [i; i])))
  | _ => Raise (RuntimeError "trace: expected a matrix")
  end.

(** [torch.diag]: a vector becomes a diagonal matrix, a matrix gives its
    diagonal. *)
Definition diag (a : Tensor) : result Tensor :=
  match shape a with
  | [n] => Ok (tensor2 n n (fun i j => if (i =? j)%nat then item a [i] else 0))
  | [n; m] => Ok (tensor1 (Nat.min n m) (fun i => item a [i; i]))
  | _ => Raise (RuntimeError "diag: expected a vector or a matrix")
  end.

(** ** State and exceptions: the monad of the methods *)

Definition M (S A : Type) : Type := S -> result A * S.

Definition ret {S A} (a : A) : M S A := fun s => (Ok a, s).

Definition bind {S A B} (c : M S A) (k : A -> M S B) : M S B :=
  fun s =>
    match c s with
    | (Ok a, s') => k a s'
    | (Raise e, s') => (Raise e, s')
    end.

Definition raise {S A} (e : exn) : M S A := fun s => (Raise e, s).

(** A computation without effect on the state. *)
Definition lift {S A} (r : result A) : M S A := fun s => (r, s).

Declare Scope monad_scope.
Delimit Scope monad_scope with monad.
Notation "x <- c ;; k" := (bind c (fun x => k))
  (at level 61, c at next level, right associativity) : monad_scope.
Notation "x <~ r ;; k" := (rbind r (fun x => k))
  (at level 61, r at next level, right associativity) : monad_scope.
Open Scope monad_scope.

(** ** The random generator

    The state of the generator is the sequence of the standard normal draws
    it will deliver; a draw of a tensor consumes as many of them as the
    tensor has entries, in row-major order. *)

Definition Generator : Type := nat -> R.

Fixpoint flat_from (acc : nat) (s idx : list nat) : nat :=
  match s, idx with
  | d :: s', i :: idx' => flat_from (acc * d + i) s' idx'
  | _, _ => acc
  end.

Definition flat_index (s idx : list nat) : nat := flat_from 0 s idx.

Definition advance (k : nat) (g : Generator) : Generator := fun i => g (i + k)%nat.

(** [torch.normal(torch.zeros(s), 1.0)] *)
Definition standard_normal (s : list nat) : M Generator Tensor :=
  fun g => (Ok (mkTensor s (fun idx => g (flat_index s idx))), advance (numel s) g).

(** ** torch.nn *)

Module nn.

Record Linear : Type := mkLinear {
  in_features : nat;
  out_features : nat;
  weight : nat -> nat -> R;       (* out_features x in_features *)
  bias : option (nat -> R)        (* out_features, when present *)
}.

(** The parameter tensors of a layer. *)
Definition weight_tensor (l : Linear) : Tensor :=
  tensor2 (out_features l) (in_features l) (weight l).

Definition bias_tensor (l : Linear) : option Tensor :=
  option_map (tensor1 (out_features l)) (bias l).

(** [nn.Linear(in_features, out_features, bias=b)]: the initial entries are
    read from the generator; their distribution is not represented. *)
Definition new_Linear (n_in n_out : nat) (b : bool) : M Generator Linear :=
  w <- standard_normal [n_out; n_in] ;;
  if b then
    c <- standard_normal [n_out] ;;
    ret (mkLinear n_in n_out (at2 w) (Some (at1 c)))
  else ret (mkLinear n_in n_out (at2 w) None).

(** [l.weight.data.normal_(0.0, std)] *)
Definition normal_ (std : R) (l : Linear) : M Generator Linear :=
  w <- standard_normal [out_features l; in_features l] ;;
  ret (mkLinear (in_features l) (out_features l)
         (fun i j => 0 + std * at2 w i j) (bias l)).

(** [l(x)], that is [x @ l.weight.t() + l.bias]. *)
Definition Linear_forward (l : Linear) (x : Tensor) : result Tensor :=
  wt <~ t_ (weight_tensor l) ;;
  y <~ matmul x wt ;;
  match bias_tensor l with
  | Some b => tadd y b
  | None => Ok y
  end.

Inductive Layer : Type :=
| ALinear (l : Linear)
| ASoftplus.

End nn.

(** ** scipy.sparse and torch.sparse *)

(** A [scipy.sparse.coo_matrix]: its declared shape and its stored entries
    (row, column, value); an entry may be stored more than once. *)
Record coo_matrix : Type := mkCoo {
  coo_shape : nat * nat;
  coo_entries : list (nat * nat * R)
}.

Definition row (b : coo_matrix) : list nat := map (fun e => fst (fst e)) (coo_entries b).
Definition col (b : coo_matrix) : list nat := map (fun e => snd (fst e)) (coo_entries b).
Definition data (b : coo_matrix) : list R := map snd (coo_entries b).

(** Size along one dimension when none is given: one more than the largest
    index, and 0 without entries. *)
Definition inferred_size (ix : list nat) : nat := fold_right Nat.max 0%nat (map S ix).

Fixpoint coo_item (rows cols : list nat) (vals : list R) (i j : nat) : R :=
  match rows, cols, vals with
  | r :: rows', c :: cols', v :: vals' =>
      (if ((r =? i) && (c =? j))%nat then v else 0) + coo_item rows' cols' vals' i j
  | _, _, _ => 0
  end.

(** [torch.sparse_coo_tensor(indices, values)] with [indices] the two rows
    [rows], [cols]; the tensor is kept as the matrix it denotes. *)
Definition sparse_coo_tensor (rows cols : list nat) (vals : list R) : result Tensor :=
  if ((List.length rows =? List.length vals) && (List.length cols =? List.length vals))%nat
  then Ok (tensor2 (inferred_size rows) (inferred_size cols) (coo_item rows cols vals))
  else Raise (RuntimeError "indices and values must have same nnz").

(** ** Collaborators outside the repository

    Functions of catvae, gneiss and torch the module calls and this file does
    not define. *)

Class Externals : Type := {
  (* catvae.composition.ilr(p, basis) *)
  ilr : Tensor -> Tensor -> result Tensor;
  (* gneiss.cluster.random_linkage, gneiss.balances.sparse_balance_basis *)
  Tree : Type;
  random_linkage : nat -> Tree;
  sparse_balance_basis : Tree -> coo_matrix * list string;
  (* torch.nn.Softplus(), on one entry *)
  Softplus : R -> R;
  (* torch.distributions.Multinomial(logits=l).log_prob(x) *)
  Multinomial_log_prob : Tensor -> Tensor -> result Tensor;
  (* torch.distributions.LogNormal(loc=m, scale=s).log_prob(x) *)
  LogNormal_log_prob : Tensor -> Tensor -> Tensor -> result Tensor
}.

(** ** The module object *)

Inductive Encoder : Type :=
| EncLinear (l : nn.Linear)                  (* encoder_depth <= 1 *)
| EncSequential (layers : list nn.Layer).    (* encoder_depth > 1: nn.Sequential *)

Record LinearVAE : Type := mkLinearVAE {
  bias : bool;
  hidden_dim : nat;
  likelihood : string;
  use_analytic_elbo : bool;
  input_dim : nat;
  Psi : Tensor;
  encoder : Encoder;
  decoder : nn.Linear;
  variational_logvars : nat -> R;     (* hidden_dim entries *)
  log_sigma_sq : R                    (* a 0-d tensor *)
}.

(** [self.first_encoder] is the first layer of the sequential encoder, the
    same object. *)
Definition first_encoder (self : LinearVAE) : option nn.Linear :=
  match encoder self with
  | EncSequential (nn.ALinear l :: _) => Some l
  | _ => None
  end.

Definition logvars_tensor (self : LinearVAE) : Tensor :=
  tensor1 (hidden_dim self) (variational_logvars self).

(** [self.imputer = lambda x: x + 1] *)
Definition imputer (x : Tensor) : Tensor := tmap (fun v => v + 1) x.

Definition LOG_2_PI : R := ln (2 * PI).

(** [self.encoder.weight] *)
Definition encoder_weight (e : Encoder) : result Tensor :=
  match e with
  | EncLinear l => Ok (nn.weight_tensor l)
  | EncSequential _ => Raise (AttributeError "'Sequential' object has no attribute 'weight'")
  end.

(** What [nn.Module] registers: the buffers and the trainable parameters
    (the names of the layers of a sequential encoder are not told apart). *)
Fixpoint layer_parameters (prefix : string) (layers : list nn.Layer)
  : list (string * Tensor) :=
  match layers with
  | [] => []
  | nn.ALinear l :: rest =>
      (prefix ++ "weight", nn.weight_tensor l)%string
        :: match nn.bias_tensor l with
           | Some b => [((prefix ++ "bias")%string, b)]
           | None => []
           end
        ++ layer_parameters prefix rest
  | nn.ASoftplus :: rest => layer_parameters prefix rest
  end.

Definition named_parameters (self : LinearVAE) : list (string * Tensor) :=
  [("variational_logvars"%string, logvars_tensor self);
   ("log_sigma_sq"%string, scalar (log_sigma_sq self))]
  ++ match encoder self with
     | EncLinear l => layer_parameters "encoder." [nn.ALinear l]
     | EncSequential layers => layer_parameters "encoder.k." layers
     end
  ++ layer_parameters "decoder." [nn.ALinear (decoder self)].

Definition named_buffers (self : LinearVAE) : list (string * Tensor) :=
  [("Psi"%string, Psi self)].

Record State : Type := mkState { self_ : LinearVAE; rng : Generator }.

Definition get_self : M State LinearVAE := fun st => (Ok (self_ st), st).

(** A computation on the generator, run on the generator of the state. *)
Definition on_rng {A} (c : M Generator A) : M State A :=
  fun st => let (r, g) := c (rng st) in (r, mkState (self_ st) g).

(** ** Tensor functions of the log-normal branch *)

Definition set_last (idx : list nat) (j : nat) : list nat := removelast idx ++ [j].

(** The log-softmax along the last axis. *)
Definition log_softmax (a : Tensor) : Tensor :=
  match rev (shape a) with
  | [] => tmap (fun v => v - ln (exp v)) a
  | d :: _ =>
      mkTensor (shape a) (fun idx =>
        item a idx - ln (big_sum d (fun j => exp (item a (set_last idx j)))))
  end.

(** The names of [torch.nn.functional] this file looks up: the log-softmax is
    exported as [log_softmax]. *)
Definition F_getattr (name : string) : result (Tensor -> result Tensor) :=
  if String.eqb name "log_softmax" then Ok (fun a => Ok (log_softmax a))
  else Raise (AttributeError
                ("module 'torch.nn.functional' has no attribute '" ++ name ++ "'")).

(** [t.sum(axis=-1)] *)
Definition sum_last (a : Tensor) : Tensor :=
  match rev (shape a) with
  | [] => a
  | d :: s' => mkTensor (rev s') (fun idx => big_sum d (fun j => item a (idx ++ [j])))
  end.

Fixpoint all_indices (s : list nat) : list (list nat) :=
  match s with
  | [] => [[]]
  | n :: s' => flat_map (fun i => map (cons i) (all_indices s')) (seq 0 n)
  end.

Definition positive (v : R) : bool := if Rlt_dec 0 v then true else false.

(** [a[x > 0]]: the entries of [a] at the positions where [x] is positive, in
    row-major order. *)
Definition select_positive (a x : Tensor) : result Tensor :=
  if list_nat_eqb (shape a) (shape x) then
    let sel := filter (fun idx => positive (item x idx)) (all_indices (shape x)) in
    Ok (tensor1 (List.length sel) (fun k => item a (nth k sel [])))
  else if (List.length (shape a) =? List.length (shape x))%nat then
    Raise (IndexError "The shape of the mask does not match the shape of the indexed tensor")
  else Raise (Unmodelled "mask of another rank").

(** [x.shape[-1]] *)
Definition shape_last (x : Tensor) : result nat :=
  match rev (shape x) with
  | d :: _ => Ok d
  | [] => Raise (IndexError "tuple index out of range")
  end.

(** ** The encoder *)

Fixpoint Sequential_forward `{E : Externals} (layers : list nn.Layer) (x : Tensor)
  : result Tensor :=
  match layers with
  | [] => Ok x
  | nn.ALinear l :: rest => y <~ nn.Linear_forward l x ;; Sequential_forward rest y
  | nn.ASoftplus :: rest => Sequential_forward rest (tmap Softplus x)
  end.

Definition encoder_forward `{E : Externals} (e : Encoder) (x : Tensor) : result Tensor :=
  match e with
  | EncLinear l => nn.Linear_forward l x
  | EncSequential layers => Sequential_forward layers x
  end.

(** ** class LinearVAE *)

Module LinearVAE.
Section Methods.
Context `{E : Externals}.

(** The layers after the first one of an encoder of depth above one. *)
Fixpoint more_layers (hidden_dim : nat) (bias : bool) (k : nat)
  : M Generator (list nn.Layer) :=
  match k with
  | O => ret []
  | S k' =>
      l <- nn.new_Linear hidden_dim hidden_dim bias ;;
      rest <- more_layers hidden_dim bias k' ;;
      ret (nn.ASoftplus :: nn.ALinear l :: rest)
  end.

(** The loop over [self.encoder] that initialises the linear layers. *)
Fixpoint initialize (init_scale : R) (layers : list nn.Layer)
  : M Generator (list nn.Layer) :=
  match layers with
  | [] => ret []
  | nn.ALinear l :: rest =>
      l' <- nn.normal_ init_scale l ;;
      rest' <- initialize init_scale rest ;;
      ret (nn.ALinear l' :: rest')
  | nn.ASoftplus :: rest =>
      rest' <- initialize init_scale rest ;;
      ret (nn.ASoftplus :: rest')
  end.

Definition __init__ (input_dim hidden_dim : nat) (init_scale : R)
    (use_analytic_elbo : bool) (encoder_depth : Z) (likelihood : string)
    (basis : option coo_matrix) (bias : bool) : M Generator LinearVAE :=
  let basis :=
    match basis with
    | None =>
        let tree := random_linkage input_dim in
        fst (sparse_balance_basis tree)
    | Some b => b
    end in
  Psi <- lift (sparse_coo_tensor (row basis) (col basis) (data basis)) ;;
  let input_dim := hd 0%nat (shape Psi) in
  encoder <-
    (if (1 <? encoder_depth)%Z then
       first_encoder <- nn.new_Linear input_dim hidden_dim bias ;;
       more <- more_layers hidden_dim bias (Z.to_nat (encoder_depth - 1)) ;;
       layers <- initialize init_scale (nn.ALinear first_encoder :: more) ;;
       ret (EncSequential layers)
     else
       l <- nn.new_Linear input_dim hidden_dim bias ;;
       l' <- nn.normal_ init_scale l ;;
       ret (EncLinear l')) ;;
  decoder <- nn.new_Linear hidden_dim input_dim bias ;;
  ret (mkLinearVAE bias hidden_dim likelihood use_analytic_elbo input_dim Psi
         encoder decoder (fun _ => 0) 0).

Definition gaussian_kl (z_mean z_logvar : Tensor) : M State Tensor :=
  lift (
    let a := tmap (fun v => 1 + v) z_logvar in
    zz <~ tmul z_mean z_mean ;;
    b <~ tsub a zz ;;
    c <~ tsub b (texp z_logvar) ;;
    Ok (tmap (fun v => 0.5 * v) c)).

(** The statements of the log-normal branch, given the function found
    under [F.logsoftmax]. *)
Definition lognormal_mu (logsoftmax : Tensor -> result Tensor)
    (self : LinearVAE) (x eta : Tensor) : result Tensor :=
  psi_t <~ t_ (Psi self) ;;
  eta_t <~ t_ eta ;;
  p <~ matmul psi_t eta_t ;;
  p_t <~ t_ p ;;
  logp <~ logsoftmax p_t ;;
  let logN := tlog (sum_last x) in
  tadd logp logN.

Definition lognormal_loglik (logsoftmax : Tensor -> result Tensor)
    (self : LinearVAE) (x eta : Tensor) : result Tensor :=
  mu <~ lognormal_mu logsoftmax self x eta ;;
  let sigma_sq := scalar (exp (log_sigma_sq self)) in
  mu_nz <~ select_positive mu x ;;
  x_nz <~ select_positive x x ;;
  logn_loss <~ LogNormal_log_prob mu_nz sigma_sq x_nz ;;
  Ok (tmean logn_loss).

Definition recon_model_loglik (x eta : Tensor) : M State Tensor :=
  self <- get_self ;;
  if String.eqb (likelihood self) "gaussian" then
    lift (
      psi_t <~ t_ (Psi self) ;;
      lx_t <~ t_ (tlog (tmap (fun v => v + 1) x)) ;;
      x_in <~ matmul psi_t lx_t ;;
      d <~ tsub x eta ;;
      let diff := tmap (fun v => v ^ 2) d in
      let sigma_sq := exp (log_sigma_sq self) in
      Ok (tmap (fun v => 0.5 * v)
            (tmap (fun v => v - log_sigma_sq self)
               (tmap (fun v => v - LOG_2_PI)
                  (tmap (fun v => v / sigma_sq) (tneg diff))))))
  else if String.eqb (likelihood self) "multinomial" then
    lift (
      psi_t <~ t_ (Psi self) ;;
      eta_t <~ t_ eta ;;
      p <~ matmul psi_t eta_t ;;
      logp <~ t_ p ;;
      lp <~ Multinomial_log_prob logp x ;;
      let mult_loss := tmean lp in
      Ok mult_loss)
  else if String.eqb (likelihood self) "lognormal" then
    lift (
      logsoftmax <~ F_getattr "logsoftmax" ;;
      lognormal_loglik logsoftmax self x eta)
  else
    raise (ValueError (likelihood self ++ " has not be properly specified.")).

Definition analytic_exp_recon_loss (x : Tensor) : M State Tensor :=
  self <- get_self ;;
  lift (
    let z_logvar := logvars_tensor self in
    let W := nn.weight_tensor (decoder self) in
    dg <~ diag (texp z_logvar) ;;
    w_t <~ t_ W ;;
    dw <~ mm dg w_t ;;
    wdw <~ mm W dw ;;
    tr_wdw <~ trace wdw ;;
    V <~ encoder_weight (encoder self) ;;
    wv <~ mm W V ;;
    wv_t <~ t_ wv ;;
    vtwtwv <~ mm wv_t wv ;;
    xv <~ mm x vtwtwv ;;
    p1 <~ tmul x xv ;;
    let xtvtwtwvx := tsum (mean0 p1) in
    xw <~ mm x wv ;;
    p2 <~ tmul x xw ;;
    let xtwvx := tmap (fun v => 2 * v) (tsum (mean0 p2)) in
    p3 <~ tmul x x ;;
    let xtx := tsum (mean0 p3) in
    D <~ shape_last x ;;
    Ok (scalar
          (- (value tr_wdw + value xtvtwtwvx - value xtwvx + value xtx)
             / (2 * exp (log_sigma_sq self))
           - INR D * (LOG_2_PI + log_sigma_sq self) / 2))).

Definition analytic_elbo (x z_mean : Tensor) : M State Tensor :=
  self <- get_self ;;
  let z_logvar := logvars_tensor self in
  g <- gaussian_kl z_mean z_logvar ;;
  let kl_div := tsum (mean0 (tneg g)) in
  exp_recon_loss <- analytic_exp_recon_loss x ;;
  lift (tsub kl_div exp_recon_loss).

Definition encode (x : Tensor) : M State Tensor :=
  self <- get_self ;;
  hx <- lift (ilr (imputer x) (Psi self)) ;;
  z <- lift (encoder_forward (encoder self) hx) ;;
  ret z.

(** The reparameterised sample [z_mean + eps * exp(0.5 * logvars)] with
    [eps] drawn by [torch.normal(torch.zeros_like(z_mean), 1.0)]. *)
Definition reparameterize (self : LinearVAE) (z_mean : Tensor) : M State Tensor :=
  eps <- on_rng (standard_normal (shape z_mean)) ;;
  lift (
    se <~ tmul eps (texp (tmap (fun v => 0.5 * v) (logvars_tensor self))) ;;
    tadd z_mean se).

Definition forward (x : Tensor) : M State Tensor :=
  self <- get_self ;;
  x_ <- lift (ilr (imputer x) (Psi self)) ;;
  z_mean <- lift (encoder_forward (encoder self) x_) ;;
  if negb (use_analytic_elbo self) then
    z_sample <- reparameterize self z_mean ;;
    x_out <- lift (nn.Linear_forward (decoder self) z_sample) ;;
    g <- gaussian_kl z_mean (logvars_tensor self) ;;
    let kl_div := tsum (mean0 (tneg g)) in
    ll <- recon_model_loglik x x_out ;;
    let recon_loss := tsum (mean0 (tneg ll)) in
    lift (tadd kl_div recon_loss)
  else
    analytic_elbo x_ z_mean.

Definition get_reconstruction_loss (x : Tensor) : M State Tensor :=
  self <- get_self ;;
  x_ <- lift (ilr (imputer x) (Psi self)) ;;
  if use_analytic_elbo self then
    r <- analytic_exp_recon_loss x_ ;;
    ret (tneg r)
  else
    z_mean <- lift (encoder_forward (encoder self) x_) ;;
    z_sample <- reparameterize self z_mean ;;
    x_out <- lift (nn.Linear_forward (decoder self) z_sample) ;;
    ll <- recon_model_loglik x x_out ;;
    let recon_loss := tneg ll in
    ret recon_loss.

End Methods.
End LinearVAE.

(** ** class LinearBatchVAE(LinearVAE) *)

Module LinearBatchVAE.
Section Methods.
Context `{E : Externals}.

Definition __init__ (input_dim hidden_dim : nat) (init_scale : R)
    (encoder_depth : Z) (likelihood : string)
    (basis : option coo_matrix) (bias : bool) : M Generator LinearVAE :=
  LinearVAE.__init__ input_dim hidden_dim init_scale false encoder_depth
    likelihood basis bias.

Definition encode (x : Tensor) : M State Tensor :=
  self <- get_self ;;
  hx <- lift (ilr (imputer x) (Psi self)) ;;
  z <- lift (encoder_forward (encoder self) hx) ;;
  ret z.

(** [(self.Psi @ B.t()).t()] *)
Definition batch_effects_of (self : LinearVAE) (B : Tensor) : result Tensor :=
  b_t <~ t_ B ;;
  pb <~ matmul (Psi self) b_t ;;
  t_ pb.

Definition forward (x B : Tensor) : M State Tensor :=
  self <- get_self ;;
  hx <- lift (ilr (imputer x) (Psi self)) ;;
  batch_effects <- lift (batch_effects_of self B) ;;
  hx <- lift (inplace Rminus hx batch_effects) ;;
  z_mean <- lift (encoder_forward (encoder self) hx) ;;
  z_sample <- LinearVAE.reparameterize self z_mean ;;
  x_out <- lift (nn.Linear_forward (decoder self) z_sample) ;;
  x_out <- lift (inplace Rplus x_out batch_effects) ;;
  g <- LinearVAE.gaussian_kl z_mean (logvars_tensor self) ;;
  let kl_div := tsum (mean0 (tneg g)) in
  ll <- LinearVAE.recon_model_loglik x x_out ;;
  let recon_loss := tsum (mean0 (tneg ll)) in
  lift (tadd kl_div recon_loss).

Definition get_reconstruction_loss (x B : Tensor) : M State Tensor :=
  self <- get_self ;;
  hx <- lift (ilr (imputer x) (Psi self)) ;;
  batch_effects <- lift (batch_effects_of self B) ;;
  hx <- lift (inplace Rminus hx batch_effects) ;;
  z_mean <- lift (encoder_forward (encoder self) hx) ;;
  eta <- lift (nn.Linear_forward (decoder self) z_mean) ;;
  eta <- lift (inplace Rplus eta batch_effects) ;;
  ll <- LinearVAE.recon_model_loglik x eta ;;
  let recon_loss := tneg ll in
  ret recon_loss.

End Methods.
End LinearBatchVAE.

(** ** Well-formed module objects

    The shapes [__init__] establishes and no method changes. *)

Fixpoint layers_wf (d_in : nat) (layers : list nn.Layer) (d_out : nat) : Prop :=
  match layers with
  | [] => d_in = d_out
  | nn.ALinear l :: rest =>
      nn.in_features l = d_in /\ layers_wf (nn.out_features l) rest d_out
  | nn.ASoftplus :: rest => layers_wf d_in rest d_out
  end.

Definition encoder_wf (d_in : nat) (e : Encoder) (d_out : nat) : Prop :=
  match e with
  | EncLinear l => nn.in_features l = d_in /\ nn.out_features l = d_out
  | EncSequential layers => layers_wf d_in layers d_out
  end.

Definition Psi_cols (self : LinearVAE) : nat := nth 1 (shape (Psi self)) 0%nat.

Definition wf (self : LinearVAE) : Prop :=
  shape (Psi self) = [input_dim self; Psi_cols self]
  /\ encoder_wf (input_dim self) (encoder self) (hidden_dim self)
  /\ nn.in_features (decoder self) = hidden_dim self
  /\ nn.out_features (decoder self) = input_dim self.

(** ** The vocabulary of the statements *)

(** Entry (i, j) of the output of a linear layer on the matrix [x]. *)
Definition affine (l : nn.Linear) (x : Tensor) (i j : nat) : R :=
  let s := big_sum (nn.in_features l) (fun k => at2 x i k * nn.weight l j k) in
  match nn.bias l with
  | Some b => s + b j
  | None => s
  end.

(** The closed-form KL quantity of one latent coordinate. *)
Definition kl_quantity (mean logvar : R) : R :=
  0.5 * (1 + logvar - mean * mean - exp logvar).

(** The generator entry read for position (i, k) of a draw of shape [n; h]. *)
Definition noise (g : Generator) (h i k : nat) : R := g (i * h + k)%nat.

(** The KL term as the claim words it: the negated per-dimension quantity,
    summed over the latent dimensions and averaged over the rows. *)
Definition kl_term (self : LinearVAE) (z_mean : Tensor) (n : nat) : R :=
  big_sum n (fun i =>
    big_sum (hidden_dim self) (fun k =>
      - kl_quantity (at2 z_mean i k) (variational_logvars self k)))
  / INR n.

(** The state after a draw of the noise for [n] rows. *)
Definition after_noise (st : State) (n : nat) : State :=
  mkState (self_ st) (advance (n * hidden_dim (self_ st)) (rng st)).

(** Matrices as index functions, for the quantities the claims name. *)
Definition mat : Type := nat -> nat -> R.
Definition mat_mul (k : nat) (A B : mat) : mat :=
  fun i j => big_sum k (fun l => A i l * B l j).
Definition mat_t (A : mat) : mat := fun i j => A j i.
Definition mat_diag (v : nat -> R) : mat :=
  fun i j => if (i =? j)%nat then v i else 0.
Definition mat_trace (d : nat) (A : mat) : R := big_sum d (fun i => A i i).
Definition mat_vec (k : nat) (A : mat) (v : nat -> R) : nat -> R :=
  fun i => big_sum k (fun l => A i l * v l).
Definition dot (k : nat) (u v : nat -> R) : R := big_sum k (fun l => u l * v l).

Definition variance_trace (self : LinearVAE) : R :=
  let W := nn.weight (decoder self) in
  let h := hidden_dim self in
  mat_trace (input_dim self)
    (mat_mul h W (mat_mul h (mat_diag (fun k => exp (variational_logvars self k)))
                    (mat_t W))).

Definition sample (x : Tensor) (i : nat) : nat -> R := fun j => at2 x i j.

Definition quadratic_terms (self : LinearVAE) (V : mat) (x : Tensor) (n : nat) : R :=
  let d := input_dim self in
  let WV := mat_mul (hidden_dim self) (nn.weight (decoder self)) V in
  big_sum n (fun i =>
    let y := mat_vec d WV (sample x i) in
    dot d y y - 2 * dot d (sample x i) y + dot d (sample x i) (sample x i))
  / INR n.

Definition expected_loglik (self : LinearVAE) (V : mat) (x : Tensor) (n : nat) : R :=
  - (variance_trace self + quadratic_terms self V x n)
    / (2 * exp (log_sigma_sq self))
  - INR (input_dim self) * (ln (2 * PI) + log_sigma_sq self) / 2.

(** The module with another likelihood name and everything else as it is. *)
Definition with_likelihood (lk : string) (self : LinearVAE) : LinearVAE :=
  mkLinearVAE (bias self) (hidden_dim self) lk (use_analytic_elbo self)
    (input_dim self) (Psi self) (encoder self) (decoder self)
    (variational_logvars self) (log_sigma_sq self).

(** The offset of the batch matrix [B] in ILR space, [(Psi . B^T)^T], written
    out: entry (i, j) is the row [j] of [Psi] against the row [i] of [B]. *)
Definition projected (P B : Tensor) (n r c : nat) : Tensor :=
  tensor2 n r (fun i j =>
    at2 (tensor2 r n (fun i0 j0 =>
           big_sum c (fun l => at2 P i0 l * at2 (tensor2 c n (fun i1 j1 => at2 B j1 i1)) l j0)))
      j i).

(** [c] returns a value with property [P], whatever the state. *)
Definition returns {S A : Type} (c : M S A) (P : A -> Prop) : Prop :=
  forall s, exists a s', c s = (Ok a, s') /\ P a.

Definition sized (n_in n_out : nat) (l : nn.Linear) : Prop :=
  nn.in_features l = n_in /\ nn.out_features l = n_out.

Definition starts_linear (layers : list nn.Layer) : Prop :=
  match layers with
  | nn.ALinear _ :: _ => True
  | _ => False
  end.

(** The tensor [Psi] of a basis. *)
Definition Psi_of (b : coo_matrix) : Tensor :=
  tensor2 (inferred_size (row b)) (inferred_size (col b))
    (coo_item (row b) (col b) (data b)).

(** The first linear layer of the encoder. *)
Definition first_layer (e : Encoder) : option nn.Linear :=
  match e with
  | EncLinear l => Some l
  | EncSequential (nn.ALinear l :: _) => Some l
  | EncSequential _ => None
  end.

Definition keeps_module {A : Type} (c : M State A) : Prop :=
  forall st, self_ (snd (c st)) = self_ st.

Definition not_specified (lk : string) : exn :=
  ValueError (lk ++ " has not be properly specified.").

Definition known_likelihood (lk : string) : Prop :=
  lk = "gaussian"%string \/ lk = "multinomial"%string \/ lk = "lognormal"%string.

Section Vocabulary.
Context `{E : Externals}.

(** The basis the constructor works with. *)
Definition basis_used (input_dim : nat) (basis : option coo_matrix) : coo_matrix :=
  match basis with
  | None => fst (sparse_balance_basis (random_linkage input_dim))
  | Some b => b
  end.

Definition constructed (input_dim_arg hidden_dim_arg : nat) (analytic : bool)
    (lk : string) (basis : option coo_matrix) (bias_arg : bool)
    (self : LinearVAE) : Prop :=
  bias self = bias_arg
  /\ hidden_dim self = hidden_dim_arg
  /\ likelihood self = lk
  /\ use_analytic_elbo self = analytic
  /\ Psi self = Psi_of (basis_used input_dim_arg basis)
  /\ input_dim self = inferred_size (row (basis_used input_dim_arg basis))
  /\ wf self
  /\ exists l, first_layer (encoder self) = Some l
               /\ nn.in_features l = input_dim self.

(** The latent mean of [LinearBatchVAE.forward]: its statements up to
    [z_mean = self.encoder(hx)]. *)
Definition batch_z_mean (x B : Tensor) : M State Tensor :=
  self <- get_self ;;
  hx <- lift (ilr (imputer x) (Psi self)) ;;
  batch_effects <- lift (LinearBatchVAE.batch_effects_of self B) ;;
  hx <- lift (inplace Rminus hx batch_effects) ;;
  lift (encoder_forward (encoder self) hx).

End Vocabulary.

(** ** A concrete setting

    One feature, one balance, one latent coordinate: the basis is the 1 x 1
    matrix (1), so that the transposed and the plain basis agree. *)

(** Modelled from the spec: [catvae.composition.ilr] is imported by the module
    and is not part of the repository. Section 4.1: the natural log of the
    input, then the basis as a linear projection, [Psi^T . log(x)^T],
    transposed back to the sample-major layout. *)
Definition ilr_of_spec (p basis : Tensor) : result Tensor :=
  basis_t <~ t_ basis ;;
  logp_t <~ t_ (tlog p) ;;
  y <~ matmul basis_t logp_t ;;
  t_ y.

Definition toy_basis : coo_matrix := mkCoo (1%nat, 1%nat) [(0%nat, 0%nat, 1)].

Definition toy_externals : Externals := {|
  ilr := ilr_of_spec;
  Tree := unit;
  random_linkage := fun _ => tt;
  sparse_balance_basis := fun _ => (toy_basis, []);
  Softplus := fun v => ln (1 + exp v);
  Multinomial_log_prob := fun _ _ => Raise (Unmodelled "Multinomial");
  LogNormal_log_prob := fun _ _ _ => Raise (Unmodelled "LogNormal")
|}.

Definition toy_Psi : Tensor := tensor2 1 1 (coo_item [0%nat] [0%nat] [1]).

Definition toy_encoder : nn.Linear := nn.mkLinear 1 1 (fun _ _ => 2) None.
Definition toy_decoder : nn.Linear := nn.mkLinear 1 1 (fun _ _ => 1) None.

(** The toy module, by likelihood name and objective. *)
Definition toy_module (lk : string) (analytic : bool) : LinearVAE :=
  mkLinearVAE false 1 lk analytic 1 toy_Psi (EncLinear toy_encoder) toy_decoder
    (fun _ => 0) 0.

(** The generator that delivers 0, 1, 2, ... *)
Definition counting : Generator := fun k => INR k.

Definition toy_state (lk : string) (analytic : bool) : State :=
  mkState (toy_module lk analytic) counting.

(** One sample of one feature with count [v]. *)
Definition one_sample (v : R) : Tensor := tensor2 1 1 (fun _ _ => v).

(** A module on the balance (1, -1) of two features: [Psi] is 1 x 2. *)
Definition pair_module (lk : string) : LinearVAE :=
  mkLinearVAE false 1 lk false 1
    (tensor2 1 2 (fun _ j => if (j =? 0)%nat then 1 else -1))
    (EncLinear toy_encoder) toy_decoder (fun _ => 0) 0.

(** One sample of two features with counts [u] and [v]. *)
Definition pair_sample (u v : R) : Tensor :=
  tensor2 1 2 (fun _ j => if (j =? 0)%nat then u else v).

(** ** Further vocabulary *)



Definition shape_error : exn := RuntimeError "mat1 and mat2 shapes cannot be multiplied".



(** The kinds and sizes of a stack of layers: [Some (in, out)] for a linear
    layer, [None] for a softplus. *)
Definition skeleton (layers : list nn.Layer) : list (option (nat * nat)) :=
  map (fun a => match a with
                | nn.ALinear l => Some (nn.in_features l, nn.out_features l)
                | nn.ASoftplus => None
                end) layers.

(** [k] times a softplus followed by a linear layer on [h] coordinates. *)
Fixpoint hidden_skeleton (h k : nat) : list (option (nat * nat)) :=
  match k with
  | O => []
  | S k' => None :: Some (h, h) :: hidden_skeleton h k'
  end.

(** The parameters a constructor leaves. *)
Definition fresh (self : LinearVAE) : Prop :=
  (forall k, variational_logvars self k = 0) /\ log_sigma_sq self = 0.

(** Two samples of one feature with counts [u] and [v]. *)
Definition two_samples (u v : R) : Tensor :=
  tensor2 2 1 (fun i _ => if (i =? 0)%nat then u else v).

(** * Properties *)

(** ** Sums *)

Lemma big_sum_ext (n : nat) (f g : nat -> R) :
  (forall i, (i < n)%nat -> f i = g i) -> big_sum n f = big_sum n g.
Proof.
  induction n as [|n IH]; intros Hfg; simpl.
  - reflexivity.
  - rewrite IH, (Hfg n) by (intros; try apply Hfg; lia). reflexivity.
Qed.

Lemma big_sum_zero (n : nat) : big_sum n (fun _ => 0) = 0.
Proof. induction n as [|n IH]; simpl; [reflexivity | rewrite IH; lra]. Qed.

Lemma big_sum_plus (n : nat) (f g : nat -> R) :
  big_sum n (fun i => f i + g i) = big_sum n f + big_sum n g.
Proof. induction n as [|n IH]; simpl; [lra | rewrite IH; lra]. Qed.

Lemma big_sum_minus (n : nat) (f g : nat -> R) :
  big_sum n (fun i => f i - g i) = big_sum n f - big_sum n g.
Proof. induction n as [|n IH]; simpl; [lra | rewrite IH; lra]. Qed.

Lemma big_sum_scale_l (n : nat) (c : R) (f : nat -> R) :
  big_sum n (fun i => c * f i) = c * big_sum n f.
Proof. induction n as [|n IH]; simpl; [lra | rewrite IH; lra]. Qed.

Lemma big_sum_scale_r (n : nat) (c : R) (f : nat -> R) :
  big_sum n (fun i => f i * c) = big_sum n f * c.
Proof. induction n as [|n IH]; simpl; [lra | rewrite IH; lra]. Qed.

Lemma big_sum_div (n : nat) (c : R) (f : nat -> R) :
  big_sum n (fun i => f i / c) = big_sum n f / c.
Proof. unfold Rdiv. apply big_sum_scale_r. Qed.

Lemma big_sum_opp (n : nat) (f : nat -> R) :
  big_sum n (fun i => - f i) = - big_sum n f.
Proof. induction n as [|n IH]; simpl; [lra | rewrite IH; lra]. Qed.

Lemma big_sum_swap (n m : nat) (f : nat -> nat -> R) :
  big_sum n (fun i => big_sum m (fun j => f i j))
  = big_sum m (fun j => big_sum n (fun i => f i j)).
Proof.
  induction n as [|n IH]; simpl.
  - symmetry. apply big_sum_zero.
  - rewrite IH, <- big_sum_plus. reflexivity.
Qed.

Lemma big_sum_const (n : nat) (c : R) : big_sum n (fun _ => c) = INR n * c.
Proof.
  induction n as [|n IH].
  - simpl. lra.
  - rewrite S_INR. simpl. rewrite IH. lra.
Qed.

(** An index within a dimension is read at itself by broadcasting. *)
Lemma expand_in_range (d i : nat) :
  (i < d)%nat -> (if (d =? 1)%nat then 0%nat else i) = i.
Proof.
  intros Hi. destruct (Nat.eqb_spec d 1) as [->|]; [lia | reflexivity].
Qed.

Lemma list_nat_eqb_refl (s : list nat) : list_nat_eqb s s = true.
Proof. unfold list_nat_eqb. destruct (list_eq_dec Nat.eq_dec s s); congruence. Qed.

(** ** Shapes and entries of the tensor operations *)

Lemma binop_same_shape2 (g : R -> R -> R) (a b : Tensor) (n m : nat) :
  shape a = [n; m] -> shape b = [n; m] ->
  exists c, binop g a b = Ok c /\ shape c = [n; m]
    /\ forall i j, (i < n)%nat -> (j < m)%nat ->
         at2 c i j = g (at2 a i j) (at2 b i j).
Proof.
  intros Ha Hb. unfold binop, broadcast_shapes. rewrite Ha, Hb. cbn.
  rewrite !Nat.eqb_refl. cbn.
  eexists. split; [reflexivity|]. split; [reflexivity|].
  intros i j Hi Hj. unfold at2, expand_index. cbn.
  rewrite !expand_in_range by assumption. reflexivity.
Qed.

(** A matrix with a vector along its rows. *)
Lemma binop_row_vector (g : R -> R -> R) (a b : Tensor) (n m : nat) :
  shape a = [n; m] -> shape b = [m] ->
  exists c, binop g a b = Ok c /\ shape c = [n; m]
    /\ forall i j, (i < n)%nat -> (j < m)%nat ->
         at2 c i j = g (at2 a i j) (at1 b j).
Proof.
  intros Ha Hb. unfold binop, broadcast_shapes. rewrite Ha, Hb. cbn.
  rewrite !Nat.eqb_refl. cbn.
  eexists. split; [reflexivity|]. split; [reflexivity|].
  intros i j Hi Hj. unfold at2, at1, expand_index. cbn.
  rewrite !expand_in_range by assumption. reflexivity.
Qed.

Lemma binop_vector_row (g : R -> R -> R) (a b : Tensor) (n m : nat) :
  shape a = [m] -> shape b = [n; m] ->
  exists c, binop g a b = Ok c /\ shape c = [n; m]
    /\ forall i j, (i < n)%nat -> (j < m)%nat ->
         at2 c i j = g (at1 a j) (at2 b i j).
Proof.
  intros Ha Hb. unfold binop, broadcast_shapes. rewrite Ha, Hb. cbn.
  rewrite !Nat.eqb_refl. cbn.
  eexists. split; [reflexivity|]. split; [reflexivity|].
  intros i j Hi Hj. unfold at2, at1, expand_index. cbn.
  rewrite !expand_in_range by assumption. reflexivity.
Qed.

Lemma inplace_same_shape2 (g : R -> R -> R) (a b : Tensor) (n m : nat) :
  shape a = [n; m] -> shape b = [n; m] ->
  exists c, inplace g a b = Ok c /\ shape c = [n; m]
    /\ forall i j, (i < n)%nat -> (j < m)%nat ->
         at2 c i j = g (at2 a i j) (at2 b i j).
Proof.
  intros Ha Hb. destruct (binop_same_shape2 g a b n m Ha Hb) as (c & Hc & Hs & He).
  exists c. unfold inplace. rewrite Hc. cbn. rewrite Hs, Ha, list_nat_eqb_refl.
  auto.
Qed.

Lemma mm_shape2 (a b : Tensor) (n k m : nat) :
  shape a = [n; k] -> shape b = [k; m] ->
  mm a b = Ok (tensor2 n m (fun i j => big_sum k (fun l => at2 a i l * at2 b l j))).
Proof.
  intros Ha Hb. unfold mm. rewrite Ha, Hb, Nat.eqb_refl. reflexivity.
Qed.

Lemma matmul_shape2 (a b : Tensor) (n k m : nat) :
  shape a = [n; k] -> shape b = [k; m] ->
  matmul a b = Ok (tensor2 n m (fun i j => big_sum k (fun l => at2 a i l * at2 b l j))).
Proof.
  intros Ha Hb. unfold matmul. rewrite Ha, Hb. apply mm_shape2; assumption.
Qed.

Lemma t_shape2 (a : Tensor) (n m : nat) :
  shape a = [n; m] -> t_ a = Ok (tensor2 m n (fun i j => at2 a j i)).
Proof. intros Ha. unfold t_. rewrite Ha. reflexivity. Qed.

(** ** The layers *)

Lemma Linear_forward_ok (l : nn.Linear) (x : Tensor) (n : nat) :
  shape x = [n; nn.in_features l] ->
  exists y, nn.Linear_forward l x = Ok y
    /\ shape y = [n; nn.out_features l]
    /\ forall i j, (i < n)%nat -> (j < nn.out_features l)%nat ->
         at2 y i j = affine l x i j.
Proof.
  intros Hx. unfold nn.Linear_forward.
  rewrite (t_shape2 (nn.weight_tensor l) (nn.out_features l) (nn.in_features l))
    by reflexivity.
  cbn [rbind].
  rewrite (matmul_shape2 x _ n (nn.in_features l) (nn.out_features l))
    by (assumption || reflexivity).
  cbn [rbind]. unfold nn.bias_tensor, affine.
  destruct (nn.bias l) as [b|]; cbn [option_map].
  - match goal with |- context [tadd ?a ?b] =>
      destruct (binop_row_vector Rplus a b n (nn.out_features l)) as (c & Hc & Hs & He);
        [reflexivity | reflexivity |]
    end.
    exists c. split; [exact Hc|]. split; [exact Hs|].
    intros i j Hi Hj. rewrite (He i j Hi Hj). reflexivity.
  - eexists. split; [reflexivity|]. split; [reflexivity|].
    intros i j Hi Hj. reflexivity.
Qed.

Section Encoders.
Context `{E : Externals}.

Lemma Sequential_forward_ok (layers : list nn.Layer) :
  forall (x : Tensor) (n d_in d_out : nat),
    layers_wf d_in layers d_out -> shape x = [n; d_in] ->
    exists y, Sequential_forward layers x = Ok y /\ shape y = [n; d_out].
Proof.
  induction layers as [|[l|] rest IH]; intros x n d_in d_out Hwf Hx;
    cbn [Sequential_forward layers_wf] in *.
  - subst. exists x. auto.
  - destruct Hwf as [Hin Hrest].
    destruct (Linear_forward_ok l x n) as (y & Hy & Hs & _); [congruence|].
    rewrite Hy. cbn [rbind]. eapply IH; eauto.
  - eapply IH; eauto.
Qed.

Lemma encoder_forward_ok (e : Encoder) (x : Tensor) (n d_in d_out : nat) :
  encoder_wf d_in e d_out -> shape x = [n; d_in] ->
  exists z, encoder_forward e x = Ok z /\ shape z = [n; d_out].
Proof.
  destruct e as [l|layers]; cbn [encoder_forward encoder_wf]; intros Hwf Hx.
  - destruct Hwf as [Hin Hout].
    destruct (Linear_forward_ok l x n) as (y & Hy & Hs & _); [congruence|].
    exists y. split; congruence.
  - eapply Sequential_forward_ok; eauto.
Qed.

End Encoders.

(** ** The pieces of the sampling path *)

Lemma gaussian_kl_ok (self : LinearVAE) (z_mean : Tensor) (n : nat) (st : State) :
  shape z_mean = [n; hidden_dim self] ->
  exists g, LinearVAE.gaussian_kl z_mean (logvars_tensor self) st = (Ok g, st)
    /\ shape g = [n; hidden_dim self]
    /\ forall i k, (i < n)%nat -> (k < hidden_dim self)%nat ->
         at2 g i k = kl_quantity (at2 z_mean i k) (variational_logvars self k).
Proof.
  intros Hz. unfold LinearVAE.gaussian_kl, lift.
  destruct (binop_same_shape2 Rmult z_mean z_mean n (hidden_dim self) Hz Hz)
    as (zz & Hzz & Szz & Ezz).
  unfold tmul. rewrite Hzz. cbn [rbind].
  destruct (binop_vector_row Rminus (tmap (fun v => 1 + v) (logvars_tensor self)) zz
              n (hidden_dim self)) as (b & Hb & Sb & Eb); [reflexivity | exact Szz |].
  unfold tsub. rewrite Hb. cbn [rbind].
  destruct (binop_row_vector Rminus b (texp (logvars_tensor self))
              n (hidden_dim self)) as (c & Hc & Sc & Ec); [exact Sb | reflexivity |].
  rewrite Hc. cbn [rbind].
  eexists. split; [reflexivity|]. split; [exact Sc|].
  intros i k Hi Hk. unfold at2 at 1. cbn [tmap item].
  fold (at2 c i k). rewrite (Ec i k Hi Hk), (Eb i k Hi Hk), (Ezz i k Hi Hk).
  reflexivity.
Qed.

Lemma reparameterize_ok (self : LinearVAE) (z_mean : Tensor) (n : nat) (st : State) :
  shape z_mean = [n; hidden_dim self] ->
  exists z_sample,
    LinearVAE.reparameterize self z_mean st
    = (Ok z_sample, mkState (self_ st) (advance (n * hidden_dim self) (rng st)))
    /\ shape z_sample = [n; hidden_dim self]
    /\ forall i k, (i < n)%nat -> (k < hidden_dim self)%nat ->
         at2 z_sample i k
         = at2 z_mean i k
           + noise (rng st) (hidden_dim self) i k
             * exp (0.5 * variational_logvars self k).
Proof.
  intros Hz. unfold LinearVAE.reparameterize, bind, on_rng, standard_normal, lift.
  rewrite Hz.
  match goal with |- context [tmul ?a ?b] =>
    destruct (binop_row_vector Rmult a b n (hidden_dim self)) as (se & Hse & Sse & Ese);
      [reflexivity | reflexivity |]
  end.
  unfold tmul in *. rewrite Hse. cbn [rbind].
  destruct (binop_same_shape2 Rplus z_mean se n (hidden_dim self) Hz Sse)
    as (zs & Hzs & Szs & Ezs).
  unfold tadd. rewrite Hzs.
  exists zs. split.
  - cbn [numel fold_right]. rewrite Nat.mul_1_r. reflexivity.
  - split; [exact Szs|]. intros i k Hi Hk.
    rewrite (Ezs i k Hi Hk), (Ese i k Hi Hk).
    unfold at2, at1, noise, flat_index. cbn. reflexivity.
Qed.

(** [t.mean(0).sum()] of a matrix: the column means, added up; which is the
    mean over the rows of the row sums. *)
Lemma mean0_sum_matrix (a : Tensor) (n m : nat) :
  shape a = [n; m] ->
  tsum (mean0 a)
  = scalar (big_sum n (fun i => big_sum m (fun j => at2 a i j)) / INR n).
Proof.
  intros Ha. unfold tsum, mean0. rewrite Ha. cbn [shape item sum_over].
  f_equal. rewrite big_sum_swap, <- big_sum_div. reflexivity.
Qed.

Lemma tadd_scalar (u v : R) : tadd (scalar u) (scalar v) = Ok (scalar (u + v)).
Proof. reflexivity. Qed.

Lemma tsub_scalar (u v : R) : tsub (scalar u) (scalar v) = Ok (scalar (u - v)).
Proof. reflexivity. Qed.

Lemma tsum_is_scalar (a : Tensor) : tsum a = scalar (value (tsum a)).
Proof. reflexivity. Qed.

Section Likelihood.
Context `{E : Externals}.

(** The likelihood neither draws noise nor touches the module. *)
Lemma recon_model_loglik_state (x eta : Tensor) (st : State) :
  snd (LinearVAE.recon_model_loglik x eta st) = st.
Proof.
  unfold LinearVAE.recon_model_loglik, bind, get_self, lift, raise.
  repeat match goal with
         | |- context [if ?b then _ else _] => destruct b
         end; reflexivity.
Qed.

Lemma recon_model_loglik_eta (x eta : Tensor) (st : State) :
  LinearVAE.recon_model_loglik x eta st
  = (fst (LinearVAE.recon_model_loglik x eta st), st).
Proof.
  rewrite <- (recon_model_loglik_state x eta st) at 3.
  apply surjective_pairing.
Qed.

End Likelihood.

(** ** The sampling objective *)

Lemma kl_div_value (self : LinearVAE) (z_mean g : Tensor) (n : nat) :
  shape g = [n; hidden_dim self] ->
  (forall i k, (i < n)%nat -> (k < hidden_dim self)%nat ->
     at2 g i k = kl_quantity (at2 z_mean i k) (variational_logvars self k)) ->
  tsum (mean0 (tneg g)) = scalar (kl_term self z_mean n).
Proof.
  intros Sg Eg. rewrite (mean0_sum_matrix (tneg g) n (hidden_dim self)) by exact Sg.
  unfold kl_term. f_equal. f_equal.
  apply big_sum_ext. intros i Hi. apply big_sum_ext. intros k Hk.
  unfold at2 at 1. cbn [tneg tmap item]. fold (at2 g i k).
  rewrite (Eg i k Hi Hk). reflexivity.
Qed.


(** ** The analytic objective *)

Lemma gram_column (d : nat) (a : mat) (x : nat -> R) (j : nat) :
  big_sum d (fun l => x l * big_sum d (fun m => a m l * a m j))
  = big_sum d (fun m => mat_vec d a x m * a m j).
Proof.
  transitivity (big_sum d (fun l => big_sum d (fun m => a m l * x l * a m j))).
  - apply big_sum_ext. intros l _. rewrite <- big_sum_scale_l.
    apply big_sum_ext. intros m _. ring.
  - rewrite big_sum_swap. apply big_sum_ext. intros m _.
    unfold mat_vec. rewrite <- big_sum_scale_r. reflexivity.
Qed.

Lemma quadratic_form_gram (d : nat) (a : mat) (x : nat -> R) :
  big_sum d (fun j =>
    x j * big_sum d (fun l => x l * big_sum d (fun m => a m l * a m j)))
  = dot d (mat_vec d a x) (mat_vec d a x).
Proof.
  unfold dot.
  transitivity (big_sum d (fun j => big_sum d (fun m => mat_vec d a x m * (a m j * x j)))).
  - apply big_sum_ext. intros j _. rewrite gram_column, <- big_sum_scale_l.
    apply big_sum_ext. intros m _. ring.
  - rewrite big_sum_swap. apply big_sum_ext. intros m _.
    rewrite big_sum_scale_l. reflexivity.
Qed.

Lemma quadratic_form_cross (d : nat) (a : mat) (x : nat -> R) :
  big_sum d (fun j => x j * big_sum d (fun l => x l * a l j))
  = dot d x (mat_vec d a x).
Proof.
  unfold dot, mat_vec.
  transitivity (big_sum d (fun j => big_sum d (fun l => x l * (a l j * x j)))).
  - apply big_sum_ext. intros j _. rewrite <- big_sum_scale_l.
    apply big_sum_ext. intros l _. ring.
  - rewrite big_sum_swap. apply big_sum_ext. intros l _.
    rewrite big_sum_scale_l. reflexivity.
Qed.

Lemma analytic_exp_recon_loss_value
    (st : State) (x : Tensor) (n : nat) (l : nn.Linear) :
  encoder (self_ st) = EncLinear l ->
  wf (self_ st) ->
  shape x = [n; input_dim (self_ st)] ->
  LinearVAE.analytic_exp_recon_loss x st
  = (Ok (scalar (expected_loglik (self_ st) (nn.weight l) x n)), st).
Proof.
  destruct st as [self g]. intros Henc (HPsi & Hewf & Hdin & Hdout) Hx.
  cbn [self_] in *. rewrite Henc in Hewf. destruct Hewf as [Hlin Hlout].
  unfold LinearVAE.analytic_exp_recon_loss, bind, get_self, lift. cbn [self_].
  f_equal.
  rewrite Henc. cbn [encoder_weight].
  unfold expected_loglik, variance_trace, quadratic_terms, LOG_2_PI.
  unfold logvars_tensor, nn.weight_tensor.
  rewrite Hdin, Hdout, Hlin, Hlout.
  set (d := input_dim self) in *. set (h := hidden_dim self) in *.
  set (W := nn.weight (decoder self)). set (V := nn.weight l).
  set (lv := variational_logvars self).
  repeat (cbn [diag texp tmap tensor1 tensor2 shape item rbind t_ mm trace value scalar];
          rewrite ?Nat.eqb_refl).
  rewrite Nat.min_id.
  unfold mm at 1. rewrite Hx. cbn [shape tensor2]. rewrite Nat.eqb_refl. cbn [rbind].
  match goal with |- context [tmul x ?b] =>
    destruct (binop_same_shape2 Rmult x b n d Hx eq_refl) as (p1 & Hp1 & Sp1 & Ep1)
  end.
  unfold tmul at 1. rewrite Hp1. cbn [rbind].
  unfold mm at 1. rewrite Hx. cbn [shape tensor2]. rewrite Nat.eqb_refl. cbn [rbind].
  match goal with |- context [tmul x ?b] =>
    destruct (binop_same_shape2 Rmult x b n d Hx eq_refl) as (p2 & Hp2 & Sp2 & Ep2)
  end.
  unfold tmul at 1. rewrite Hp2. cbn [rbind].
  destruct (binop_same_shape2 Rmult x x n d Hx Hx) as (p3 & Hp3 & Sp3 & Ep3).
  unfold tmul at 1. rewrite Hp3. cbn [rbind].
  unfold shape_last. rewrite Hx. cbn [rev app rbind].
  rewrite (mean0_sum_matrix p1 n d Sp1), (mean0_sum_matrix p2 n d Sp2),
    (mean0_sum_matrix p3 n d Sp3).
  cbn [value scalar item].
  do 2 f_equal.
  assert (H1 : big_sum n (fun i => big_sum d (fun j => at2 p1 i j))
               = big_sum n (fun i =>
                   dot d (mat_vec d (mat_mul h W V) (sample x i))
                         (mat_vec d (mat_mul h W V) (sample x i)))).
  { apply big_sum_ext. intros i Hi. rewrite <- quadratic_form_gram.
    apply big_sum_ext. intros j Hj. rewrite (Ep1 i j Hi Hj). reflexivity. }
  assert (H2 : big_sum n (fun i => big_sum d (fun j => at2 p2 i j))
               = big_sum n (fun i =>
                   dot d (sample x i) (mat_vec d (mat_mul h W V) (sample x i)))).
  { apply big_sum_ext. intros i Hi. rewrite <- quadratic_form_cross.
    apply big_sum_ext. intros j Hj. rewrite (Ep2 i j Hi Hj). reflexivity. }
  assert (H3 : big_sum n (fun i => big_sum d (fun j => at2 p3 i j))
               = big_sum n (fun i => dot d (sample x i) (sample x i))).
  { apply big_sum_ext. intros i Hi. apply big_sum_ext. intros j Hj.
    rewrite (Ep3 i j Hi Hj). reflexivity. }
  rewrite H1, H2, H3, big_sum_plus, big_sum_minus, big_sum_scale_l.
  unfold mat_trace, mat_mul, mat_diag, mat_t, Rdiv. ring.
Qed.

(** With an encoder of depth above one, [self.encoder] is a [Sequential] and
    has no weight: the analytic loss raises. *)
Lemma analytic_exp_recon_loss_sequential
    (st : State) (x : Tensor) (layers : list nn.Layer) :
  encoder (self_ st) = EncSequential layers ->
  wf (self_ st) ->
  LinearVAE.analytic_exp_recon_loss x st
  = (Raise (AttributeError "'Sequential' object has no attribute 'weight'"), st).
Proof.
  destruct st as [self g]. intros Henc (HPsi & Hewf & Hdin & Hdout).
  cbn [self_] in *.
  unfold LinearVAE.analytic_exp_recon_loss, bind, get_self, lift. cbn [self_].
  f_equal. rewrite Henc. unfold logvars_tensor, nn.weight_tensor.
  rewrite Hdin, Hdout.
  repeat (cbn [diag texp tmap tensor1 tensor2 shape item rbind t_ mm trace value scalar
               encoder_weight];
          rewrite ?Nat.eqb_refl).
  reflexivity.
Qed.

(** With a decoder weight of zeros only the input is left in the quadratic
    terms. *)
Lemma expected_loglik_zero_decoder (self : LinearVAE) (V : mat) (x : Tensor) (n : nat) :
  (forall j k, (j < input_dim self)%nat -> (k < hidden_dim self)%nat ->
     nn.weight (decoder self) j k = 0) ->
  expected_loglik self V x n
  = - INR (input_dim self) * (ln (2 * PI) + log_sigma_sq self) / 2
    - (big_sum n (fun i => big_sum (input_dim self) (fun j => at2 x i j * at2 x i j))
       / INR n)
      / (2 * exp (log_sigma_sq self)).
Proof.
  intros HW. unfold expected_loglik, variance_trace, quadratic_terms.
  set (d := input_dim self) in *. set (h := hidden_dim self) in *.
  set (W := nn.weight (decoder self)) in *.
  assert (HWV : forall m j, (m < d)%nat -> mat_mul h W V m j = 0).
  { intros m j Hm. unfold mat_mul.
    rewrite (big_sum_ext h _ (fun _ => 0)); [apply big_sum_zero|].
    intros k Hk. rewrite (HW m k Hm Hk). ring. }
  assert (Hy : forall v m, (m < d)%nat -> mat_vec d (mat_mul h W V) v m = 0).
  { intros v m Hm. unfold mat_vec.
    rewrite (big_sum_ext d _ (fun _ => 0)); [apply big_sum_zero|].
    intros j _. rewrite (HWV m j Hm). ring. }
  assert (Htr : mat_trace d
                  (mat_mul h W (mat_mul h (mat_diag (fun k => exp (variational_logvars self k)))
                                  (mat_t W))) = 0).
  { unfold mat_trace. rewrite (big_sum_ext d _ (fun _ => 0)); [apply big_sum_zero|].
    intros j Hj. unfold mat_mul at 1.
    rewrite (big_sum_ext h _ (fun _ => 0)); [apply big_sum_zero|].
    intros k Hk. rewrite (HW j k Hj Hk). ring. }
  rewrite Htr.
  rewrite (big_sum_ext n _ (fun i => big_sum d (fun j => at2 x i j * at2 x i j))).
  - unfold Rdiv. ring.
  - intros i _. cbv zeta. unfold dot at 1 2.
    rewrite (big_sum_ext d (fun l => mat_vec d (mat_mul h W V) (sample x i) l * _)
               (fun _ => 0)) by (intros m Hm; rewrite (Hy _ m Hm); ring).
    rewrite (big_sum_ext d (fun l => sample x i l * _) (fun _ => 0))
      by (intros m Hm; rewrite (Hy _ m Hm); ring).
    rewrite big_sum_zero. unfold dot, sample. ring.
Qed.

Lemma analytic_elbo_value
    (st : State) (x z_mean : Tensor) (n m : nat) (l : nn.Linear) :
  encoder (self_ st) = EncLinear l ->
  wf (self_ st) ->
  shape x = [n; input_dim (self_ st)] ->
  shape z_mean = [m; hidden_dim (self_ st)] ->
  LinearVAE.analytic_elbo x z_mean st
  = (Ok (scalar (kl_term (self_ st) z_mean m
                 - expected_loglik (self_ st) (nn.weight l) x n)), st).
Proof.
  intros Henc Hwf Hx Hz.
  destruct (gaussian_kl_ok (self_ st) z_mean m st Hz) as (g & Hg & Sg & Eg).
  unfold LinearVAE.analytic_elbo, bind, get_self.
  rewrite Hg, (analytic_exp_recon_loss_value st x n l Henc Hwf Hx). unfold lift.
  rewrite (kl_div_value (self_ st) z_mean g m Sg Eg), tsub_scalar. reflexivity.
Qed.

(** C1. On an input matrix [x] in ILR coordinates, [analytic_exp_recon_loss]
    returns -(tr(W diag(exp(logvar)) W^T) + q) / (2 exp(log_sigma_sq))
    - D (log(2 pi) + log_sigma_sq) / 2 with [q] the batch average of
    x^T V^T W^T W V x - 2 x^T W V x + x^T x; with a decoder weight of zeros
    this is -D (log(2 pi) + log_sigma_sq) / 2 minus the batch mean of the
    feature-summed squares over 2 exp(log_sigma_sq); and [analytic_elbo]
    returns the negated-KL term minus this expected log-likelihood. *)
Theorem analytic_objective
    (st : State) (x : Tensor) (n : nat) (l : nn.Linear) :
  encoder (self_ st) = EncLinear l ->
  wf (self_ st) ->
  shape x = [n; input_dim (self_ st)] ->
  (0 < n)%nat ->
  LinearVAE.analytic_exp_recon_loss x st
  = (Ok (scalar (expected_loglik (self_ st) (nn.weight l) x n)), st)
  /\ ((forall j k, (j < input_dim (self_ st))%nat -> (k < hidden_dim (self_ st))%nat ->
         nn.weight (decoder (self_ st)) j k = 0) ->
      LinearVAE.analytic_exp_recon_loss x st
      = (Ok (scalar
               (- INR (input_dim (self_ st)) * (ln (2 * PI) + log_sigma_sq (self_ st)) / 2
                - (big_sum n (fun i =>
                     big_sum (input_dim (self_ st)) (fun j => at2 x i j * at2 x i j))
                   / INR n)
                  / (2 * exp (log_sigma_sq (self_ st))))), st))
  /\ (forall z_mean m,
        shape z_mean = [m; hidden_dim (self_ st)] ->
        LinearVAE.analytic_elbo x z_mean st
        = (Ok (scalar (kl_term (self_ st) z_mean m
                       - expected_loglik (self_ st) (nn.weight l) x n)), st)).
Proof.
  intros Henc Hwf Hx Hn.
  pose proof (analytic_exp_recon_loss_value st x n l Henc Hwf Hx) as Hloss.
  split; [exact Hloss|]. split.
  - intros HW. rewrite Hloss.
    rewrite (expected_loglik_zero_decoder _ _ _ _ HW). reflexivity.
  - intros z_mean m Hz. apply analytic_elbo_value; assumption.
Qed.

(** ** The analytic path and the likelihood setting *)

Ltac case_result :=
  match goal with
  | |- context [match ?r with Ok _ => _ | Raise _ => _ end] =>
      lazymatch r with
      | context [match _ with Ok _ => _ | Raise _ => _ end] => fail
      | _ => destruct r eqn:?
      end
  end.

Lemma forward_analytic_likelihood `{E : Externals} (self : LinearVAE) (g : Generator)
    (x : Tensor) (lk : string) :
  use_analytic_elbo self = true ->
  LinearVAE.forward x (mkState (with_likelihood lk self) g)
  = (fst (LinearVAE.forward x (mkState self g)), mkState (with_likelihood lk self) g).
Proof.
  intros Hmode.
  unfold LinearVAE.forward, LinearVAE.analytic_elbo, LinearVAE.analytic_exp_recon_loss,
    LinearVAE.gaussian_kl, bind, get_self, lift, logvars_tensor, with_likelihood.
  cbn [self_ Psi encoder decoder use_analytic_elbo hidden_dim variational_logvars
       log_sigma_sq].
  rewrite Hmode.
  cbn [negb self_ Psi encoder decoder use_analytic_elbo hidden_dim variational_logvars
       log_sigma_sq].
  destruct (ilr (imputer x) (Psi self)) as [x_|e]; [|reflexivity].
  destruct (encoder_forward (encoder self) x_) as [z|e]; [|reflexivity].
  repeat case_result; reflexivity.
Qed.

Lemma forward_analytic_value `{E : Externals} (self : LinearVAE) (g : Generator)
    (x x_ : Tensor) (n : nat) (l : nn.Linear) :
  use_analytic_elbo self = true ->
  encoder self = EncLinear l ->
  wf self ->
  ilr (imputer x) (Psi self) = Ok x_ ->
  shape x_ = [n; input_dim self] ->
  exists z_mean,
    encoder_forward (encoder self) x_ = Ok z_mean
    /\ LinearVAE.forward x (mkState self g)
       = (Ok (scalar (kl_term self z_mean n - expected_loglik self (nn.weight l) x_ n)),
          mkState self g).
Proof.
  intros Hmode Henc Hwf Hilr Hx_.
  pose proof Hwf as (HPsi & Hewf & Hd).
  destruct (encoder_forward_ok _ x_ n _ _ Hewf Hx_) as (z & Hz & Sz).
  exists z. split; [exact Hz|].
  unfold LinearVAE.forward, bind, get_self, lift. cbn [self_].
  rewrite Hilr, Hz, Hmode. cbn [negb].
  apply (analytic_elbo_value (mkState self g) x_ z n n l); assumption.
Qed.

(** C9. With [use_analytic_elbo] true the loss of [forward] does not depend on
    the likelihood name: two modules that differ in nothing else return the
    same result on every input, no noise is drawn, and whatever the name
    (invalid ones included) a well-formed module with a single-layer encoder
    returns the analytic loss. *)
Theorem analytic_forward_ignores_likelihood `{E : Externals}
    (self : LinearVAE) (g : Generator) (x : Tensor) (lk1 lk2 : string) :
  use_analytic_elbo self = true ->
  fst (LinearVAE.forward x (mkState (with_likelihood lk1 self) g))
  = fst (LinearVAE.forward x (mkState (with_likelihood lk2 self) g))
  /\ snd (LinearVAE.forward x (mkState (with_likelihood lk1 self) g))
     = mkState (with_likelihood lk1 self) g
  /\ (forall l x_ n,
        encoder self = EncLinear l ->
        wf self ->
        ilr (imputer x) (Psi self) = Ok x_ ->
        shape x_ = [n; input_dim self] ->
        (0 < n)%nat ->
        exists z_mean,
          encoder_forward (encoder self) x_ = Ok z_mean
          /\ fst (LinearVAE.forward x (mkState (with_likelihood lk1 self) g))
             = Ok (scalar (kl_term self z_mean n
                           - expected_loglik self (nn.weight l) x_ n))).
Proof.
  intros Hmode.
  rewrite (forward_analytic_likelihood self g x lk1 Hmode),
    (forward_analytic_likelihood self g x lk2 Hmode).
  cbn [fst snd]. split; [reflexivity|]. split; [reflexivity|].
  intros l x_ n Henc Hwf Hilr Hx_ _.
  destruct (forward_analytic_value self g x x_ n l Hmode Henc Hwf Hilr Hx_)
    as (z & Hz & Hf).
  exists z. split; [exact Hz|]. rewrite Hf. reflexivity.
Qed.

(** ** The Gaussian likelihood *)

(** C5 (as amended). For matrices [x] and [eta] of one shape whose number of
    columns is the number of rows of [Psi], the Gaussian branch returns, per
    entry, 0.5 (-(x - eta)^2 / exp(log_sigma_sq) - log(2 pi) - log_sigma_sq):
    [x] enters the value as it is. *)
Theorem gaussian_loglik_entries `{E : Externals}
    (st : State) (x eta : Tensor) (n r c : nat) :
  likelihood (self_ st) = "gaussian"%string ->
  shape (Psi (self_ st)) = [r; c] ->
  shape x = [n; r] ->
  shape eta = [n; r] ->
  exists ll,
    LinearVAE.recon_model_loglik x eta st = (Ok ll, st)
    /\ shape ll = [n; r]
    /\ forall i j, (i < n)%nat -> (j < r)%nat ->
         at2 ll i j
         = 0.5 * (- (at2 x i j - at2 eta i j) ^ 2 / exp (log_sigma_sq (self_ st))
                  - ln (2 * PI) - log_sigma_sq (self_ st)).
Proof.
  intros Hlk HPsi Hx Heta.
  unfold LinearVAE.recon_model_loglik, bind, get_self. rewrite Hlk.
  cbn [String.eqb Ascii.eqb Bool.eqb]. unfold lift.
  rewrite (t_shape2 (Psi (self_ st)) r c HPsi). cbn [rbind].
  rewrite (t_shape2 (tlog (tmap (fun v => v + 1) x)) n r) by exact Hx.
  cbn [rbind].
  rewrite (matmul_shape2 _ _ c r n) by reflexivity. cbn [rbind].
  destruct (binop_same_shape2 Rminus x eta n r Hx Heta) as (d & Hd & Sd & Ed).
  unfold tsub. rewrite Hd. cbn [rbind].
  eexists. split; [reflexivity|]. split; [exact Sd|].
  intros i j Hi Hj. unfold at2 at 1. cbn [tmap tneg item].
  fold (at2 d i j). rewrite (Ed i j Hi Hj). unfold LOG_2_PI. reflexivity.
Qed.

(** ** The statements at the toy module *)

Lemma toy_wf (lk : string) (analytic : bool) : wf (toy_module lk analytic).
Proof. unfold wf. cbn. repeat split; reflexivity. Defined.

Lemma toy_ilr (v : R) :
  ilr (Externals := toy_externals) (imputer (one_sample v)) toy_Psi
  = Ok (tensor2 1 1 (fun i j =>
         big_sum 1 (fun l => at2 (tensor2 1 1 (fun i0 j0 => at2 toy_Psi j0 i0)) j l
                             * at2 (tensor2 1 1 (fun i0 j0 =>
                                      at2 (tlog (imputer (one_sample v))) j0 i0)) l i))).
Proof. reflexivity. Defined.

Lemma analytic_objective_witness :
  LinearVAE.analytic_exp_recon_loss (one_sample 3) (toy_state "gaussian" true)
  = (Ok (scalar (expected_loglik (toy_module "gaussian" true) (fun _ _ => 2)
                   (one_sample 3) 1)),
     toy_state "gaussian" true).
Proof.
  exact (proj1 (analytic_objective
                  (toy_state "gaussian" true) (one_sample 3) 1 toy_encoder
                  eq_refl (toy_wf _ _) eq_refl Nat.lt_0_1)).
Defined.


Lemma analytic_forward_ignores_likelihood_witness :
  fst (LinearVAE.forward (E := toy_externals) (one_sample 3)
         (mkState (with_likelihood "poisson" (toy_module "gaussian" true)) counting))
  = fst (LinearVAE.forward (E := toy_externals) (one_sample 3)
           (mkState (with_likelihood "lognormal" (toy_module "gaussian" true)) counting)).
Proof.
  exact (proj1 (analytic_forward_ignores_likelihood (E := toy_externals)
                  (toy_module "gaussian" true) counting (one_sample 3)
                  "poisson" "lognormal" eq_refl)).
Defined.

Lemma gaussian_loglik_entries_witness :
  exists ll,
    LinearVAE.recon_model_loglik (E := toy_externals) (one_sample 3) (one_sample 1)
      (toy_state "gaussian" false)
    = (Ok ll, toy_state "gaussian" false)
    /\ at2 ll 0 0 = 0.5 * (- (3 - 1) ^ 2 / exp 0 - ln (2 * PI) - 0).
Proof.
  destruct (gaussian_loglik_entries (E := toy_externals) (toy_state "gaussian" false)
              (one_sample 3) (one_sample 1) 1 1 1 eq_refl eq_refl eq_refl eq_refl)
    as (ll & Hll & _ & Hv).
  exists ll. split; [exact Hll|]. exact (Hv 0%nat 0%nat Nat.lt_0_1 Nat.lt_0_1).
Defined.

(** The claim C5 as it is worded fails on a basis that is not square: a
    sample [x] with the two features of the basis and an [eta] of the shape of
    [x] raise, for the unused projection [x_in] cannot be formed. *)
Lemma gaussian_loglik_shape_counterexample :
  shape (pair_sample 3 1) = shape (pair_sample 0 0)
  /\ fst (LinearVAE.recon_model_loglik (E := toy_externals)
            (pair_sample 3 1) (pair_sample 0 0)
            (mkState (pair_module "gaussian") counting))
     = Raise (RuntimeError "mat1 and mat2 shapes cannot be multiplied").
Proof. split; reflexivity. Qed.

(** ** Construction *)

Lemma returns_ret {S A : Type} (a : A) (P : A -> Prop) :
  P a -> returns (S := S) (ret a) P.
Proof. intros Ha s. exists a, s. split; [reflexivity | exact Ha]. Qed.

Lemma returns_bind {S A B : Type} (c : M S A) (k : A -> M S B)
    (P : A -> Prop) (Q : B -> Prop) :
  returns c P -> (forall a, P a -> returns (k a) Q) -> returns (bind c k) Q.
Proof.
  intros Hc Hk s. destruct (Hc s) as (a & s' & Hcs & Ha).
  destruct (Hk a Ha s') as (b & s'' & Hks & Hb).
  exists b, s''. unfold bind. rewrite Hcs. split; assumption.
Qed.

Lemma returns_weaken {S A : Type} (c : M S A) (P Q : A -> Prop) :
  returns c P -> (forall a, P a -> Q a) -> returns c Q.
Proof.
  intros Hc HPQ s. destruct (Hc s) as (a & s' & Hcs & Ha).
  exists a, s'. split; [exact Hcs | exact (HPQ a Ha)].
Qed.

Lemma standard_normal_returns (s : list nat) : returns (standard_normal s) (fun _ => True).
Proof. intros g. eexists _, _. split; [reflexivity | exact I]. Qed.

Lemma new_Linear_returns (n_in n_out : nat) (b : bool) :
  returns (nn.new_Linear n_in n_out b) (sized n_in n_out).
Proof.
  unfold nn.new_Linear. eapply returns_bind; [apply standard_normal_returns|].
  intros w _. destruct b.
  - eapply returns_bind; [apply standard_normal_returns|].
    intros c _. apply returns_ret. split; reflexivity.
  - apply returns_ret. split; reflexivity.
Qed.

Lemma normal_returns (std : R) (l : nn.Linear) :
  returns (nn.normal_ std l) (sized (nn.in_features l) (nn.out_features l)).
Proof.
  unfold nn.normal_. eapply returns_bind; [apply standard_normal_returns|].
  intros w _. apply returns_ret. split; reflexivity.
Qed.

Lemma more_layers_returns (h : nat) (b : bool) (k : nat) :
  returns (LinearVAE.more_layers h b k) (fun layers => layers_wf h layers h).
Proof.
  induction k as [|k IH]; cbn [LinearVAE.more_layers].
  - apply returns_ret. reflexivity.
  - eapply returns_bind; [apply new_Linear_returns|]. intros l [Hin Hout].
    eapply returns_bind; [exact IH|]. intros rest Hrest.
    apply returns_ret. cbn [layers_wf]. rewrite Hout. auto.
Qed.

Lemma initialize_returns (std : R) (layers : list nn.Layer) :
  forall d_in d_out,
    layers_wf d_in layers d_out ->
    returns (LinearVAE.initialize std layers)
      (fun layers' =>
         layers_wf d_in layers' d_out
         /\ (starts_linear layers -> starts_linear layers')).
Proof.
  induction layers as [|[l|] rest IH]; intros d_in d_out Hwf;
    cbn [LinearVAE.initialize layers_wf] in *.
  - apply returns_ret. split; auto.
  - destruct Hwf as [Hin Hrest].
    eapply returns_bind; [apply normal_returns|]. intros l' [Hin' Hout'].
    rewrite <- Hout' in Hrest.
    eapply returns_bind; [apply (IH _ _ Hrest)|]. intros rest' (Hwf' & _).
    apply returns_ret. cbn [layers_wf starts_linear].
    repeat split; try congruence; auto.
  - eapply returns_bind; [apply (IH _ _ Hwf)|]. intros rest' (Hwf' & _).
    apply returns_ret. cbn [layers_wf starts_linear]. split; auto.
Qed.

Section Construction.
Context `{E : Externals}.

Lemma sparse_coo_tensor_basis (b : coo_matrix) :
  sparse_coo_tensor (row b) (col b) (data b) = Ok (Psi_of b).
Proof.
  unfold sparse_coo_tensor, row, col, data.
  rewrite !length_map, Nat.eqb_refl. reflexivity.
Qed.

Lemma returns_lift {S A : Type} (r : result A) (a : A) :
  r = Ok a -> returns (S := S) (lift r) (fun x => x = a).
Proof. intros -> s. exists a, s. split; reflexivity. Qed.

Lemma encoder_returns (d h : nat) (init_scale : R) (depth : Z) (b : bool) :
  returns
    (if (1 <? depth)%Z then
       first_encoder <- nn.new_Linear d h b ;;
       more <- LinearVAE.more_layers h b (Z.to_nat (depth - 1)) ;;
       layers <- LinearVAE.initialize init_scale (nn.ALinear first_encoder :: more) ;;
       ret (EncSequential layers)
     else
       l <- nn.new_Linear d h b ;;
       l' <- nn.normal_ init_scale l ;;
       ret (EncLinear l'))
    (fun e => encoder_wf d e h
              /\ exists l, first_layer e = Some l /\ nn.in_features l = d).
Proof.
  destruct (1 <? depth)%Z.
  - eapply returns_bind; [apply new_Linear_returns|]. intros l0 [Hin Hout].
    eapply returns_bind; [apply more_layers_returns|]. intros more Hmore.
    eapply returns_bind.
    + apply (initialize_returns init_scale (nn.ALinear l0 :: more) d h).
      cbn [layers_wf]. rewrite Hout. auto.
    + intros layers [Hwf Hstart]. apply returns_ret.
      cbn [encoder_wf first_layer]. split; [exact Hwf|].
      destruct layers as [|[l|] rest]; try (exfalso; exact (Hstart I)).
      exists l. split; [reflexivity|]. exact (proj1 Hwf).
  - eapply returns_bind; [apply new_Linear_returns|]. intros l0 [Hin Hout].
    eapply returns_bind; [apply normal_returns|]. intros l [Hin' Hout'].
    apply returns_ret. cbn [encoder_wf first_layer].
    split; [split; congruence|]. exists l. split; [reflexivity | congruence].
Qed.

Lemma init_returns (input_dim_arg hidden_dim_arg : nat) (init_scale : R)
    (analytic : bool) (depth : Z) (lk : string) (basis : option coo_matrix)
    (bias_arg : bool) :
  returns (LinearVAE.__init__ input_dim_arg hidden_dim_arg init_scale analytic
             depth lk basis bias_arg)
    (constructed input_dim_arg hidden_dim_arg analytic lk basis bias_arg).
Proof.
  unfold LinearVAE.__init__. fold (basis_used input_dim_arg basis).
  eapply returns_bind; [apply returns_lift, sparse_coo_tensor_basis|].
  intros P ->. cbn [Psi_of tensor2 shape hd].
  eapply returns_bind; [apply encoder_returns|]. intros e (Hwf & l & Hl & Hin).
  eapply returns_bind; [apply new_Linear_returns|]. intros dec [Hdin Hdout].
  apply returns_ret. unfold constructed, wf, Psi_cols.
  cbn [bias hidden_dim likelihood use_analytic_elbo Psi input_dim encoder decoder
       Psi_of tensor2 shape nth].
  repeat split; try assumption; try reflexivity.
  exists l. split; assumption.
Qed.

End Construction.

(** ** Methods leave the module object as it is *)

Lemma keeps_ret {A : Type} (a : A) : keeps_module (ret a).
Proof. intros st. reflexivity. Qed.

Lemma keeps_lift {A : Type} (r : result A) : keeps_module (lift r).
Proof. intros st. reflexivity. Qed.

Lemma keeps_raise {A : Type} (e : exn) : keeps_module (raise (A := A) e).
Proof. intros st. reflexivity. Qed.

Lemma keeps_get_self : keeps_module get_self.
Proof. intros st. reflexivity. Qed.

Lemma keeps_on_rng {A : Type} (c : M Generator A) : keeps_module (on_rng c).
Proof. intros st. unfold on_rng. destruct (c (rng st)). reflexivity. Qed.

Lemma keeps_bind {A B : Type} (c : M State A) (k : A -> M State B) :
  keeps_module c -> (forall a, keeps_module (k a)) -> keeps_module (bind c k).
Proof.
  intros Hc Hk st. unfold bind. specialize (Hc st).
  destruct (c st) as [[a|e] s']; cbn [snd] in *.
  - rewrite (Hk a s'). exact Hc.
  - exact Hc.
Qed.

Ltac keeps :=
  repeat first
    [ apply keeps_ret | apply keeps_lift | apply keeps_raise | apply keeps_get_self
    | apply keeps_on_rng | (apply keeps_bind; [|intro])
    | match goal with
      | |- keeps_module (if ?b then _ else _) => destruct b
      end ].

Section Keeps.
Context `{E : Externals}.

Lemma keeps_gaussian_kl (z_mean z_logvar : Tensor) :
  keeps_module (LinearVAE.gaussian_kl z_mean z_logvar).
Proof. unfold LinearVAE.gaussian_kl. keeps. Qed.

Lemma keeps_recon_model_loglik (x eta : Tensor) :
  keeps_module (LinearVAE.recon_model_loglik x eta).
Proof. unfold LinearVAE.recon_model_loglik. keeps. Qed.

Lemma keeps_analytic_exp_recon_loss (x : Tensor) :
  keeps_module (LinearVAE.analytic_exp_recon_loss x).
Proof. unfold LinearVAE.analytic_exp_recon_loss. keeps. Qed.

Lemma keeps_analytic_elbo (x z_mean : Tensor) :
  keeps_module (LinearVAE.analytic_elbo x z_mean).
Proof.
  unfold LinearVAE.analytic_elbo. keeps.
  all: first [ apply keeps_gaussian_kl | apply keeps_analytic_exp_recon_loss ].
Qed.

Lemma keeps_encode (x : Tensor) : keeps_module (LinearVAE.encode x).
Proof. unfold LinearVAE.encode. keeps. Qed.

Lemma keeps_reparameterize (self : LinearVAE) (z_mean : Tensor) :
  keeps_module (LinearVAE.reparameterize self z_mean).
Proof. unfold LinearVAE.reparameterize. keeps. Qed.

Lemma keeps_forward (x : Tensor) : keeps_module (LinearVAE.forward x).
Proof.
  unfold LinearVAE.forward. keeps;
    first [ apply keeps_reparameterize | apply keeps_gaussian_kl
          | apply keeps_recon_model_loglik | apply keeps_analytic_elbo ].
Qed.

Lemma keeps_get_reconstruction_loss (x : Tensor) :
  keeps_module (LinearVAE.get_reconstruction_loss x).
Proof.
  unfold LinearVAE.get_reconstruction_loss. keeps;
    first [ apply keeps_reparameterize | apply keeps_analytic_exp_recon_loss
          | apply keeps_recon_model_loglik ].
Qed.

Lemma keeps_batch_encode (x : Tensor) : keeps_module (LinearBatchVAE.encode x).
Proof. unfold LinearBatchVAE.encode. keeps. Qed.

Lemma keeps_batch_forward (x B : Tensor) : keeps_module (LinearBatchVAE.forward x B).
Proof.
  unfold LinearBatchVAE.forward. keeps;
    first [ apply keeps_reparameterize | apply keeps_gaussian_kl
          | apply keeps_recon_model_loglik ].
Qed.

Lemma keeps_batch_get_reconstruction_loss (x B : Tensor) :
  keeps_module (LinearBatchVAE.get_reconstruction_loss x B).
Proof.
  unfold LinearBatchVAE.get_reconstruction_loss. keeps.
  all: apply keeps_recon_model_loglik.
Qed.

End Keeps.

(** ** What the constructor stores *)

Lemma layer_parameter_names (prefix : string) (layers : list nn.Layer) (name : string) :
  In name (map fst (layer_parameters prefix layers)) ->
  name = (prefix ++ "weight")%string \/ name = (prefix ++ "bias")%string.
Proof.
  induction layers as [|[l|] rest IH]; cbn [layer_parameters map In fst].
  - intros [].
  - intros [H|H]; [left; congruence|].
    rewrite map_app in H. apply in_app_or in H. destruct H as [H|H]; [|auto].
    destruct (nn.bias_tensor l); cbn in H; [|contradiction].
    destruct H as [H|[]]. right. congruence.
  - exact IH.
Qed.

Lemma Psi_is_no_parameter (self : LinearVAE) :
  ~ In "Psi"%string (map fst (named_parameters self)).
Proof.
  unfold named_parameters. rewrite !map_app. intros H.
  apply in_app_or in H. destruct H as [H|H].
  - cbn in H. destruct H as [H|[H|[]]]; discriminate.
  - apply in_app_or in H. destruct H as [H|H].
    + destruct (encoder self); apply layer_parameter_names in H;
        destruct H as [H|H]; discriminate.
    + apply layer_parameter_names in H. destruct H as [H|H]; discriminate.
Qed.

(** C8. The constructor succeeds and stores, as [input_dim], the first
    dimension of the tensor [Psi] made from the basis it works with (the one
    supplied, or the one built), whatever [input_dim] the caller passed; the
    first layer of the encoder reads, and the decoder writes, that many
    coordinates; [Psi] is a buffer and no parameter, and every method leaves
    the module, [Psi] included, as it was. *)
Theorem constructor_fixes_input_dim `{E : Externals}
    (input_dim_arg hidden_dim_arg : nat) (init_scale : R) (analytic : bool)
    (depth : Z) (lk : string) (basis : option coo_matrix) (bias_arg : bool)
    (g : Generator) :
  exists self g',
    LinearVAE.__init__ input_dim_arg hidden_dim_arg init_scale analytic depth lk
      basis bias_arg g = (Ok self, g')
    /\ Psi self = Psi_of (basis_used input_dim_arg basis)
    /\ input_dim self = hd 0%nat (shape (Psi self))
    /\ (forall b, basis = Some b -> input_dim self = inferred_size (row b))
    /\ (exists l, first_layer (encoder self) = Some l
                  /\ nn.in_features l = input_dim self)
    /\ nn.out_features (decoder self) = input_dim self
    /\ In ("Psi"%string, Psi self) (named_buffers self)
    /\ ~ In "Psi"%string (map fst (named_parameters self))
    /\ (forall x eta z B,
          keeps_module (LinearVAE.gaussian_kl x z)
          /\ keeps_module (LinearVAE.recon_model_loglik x eta)
          /\ keeps_module (LinearVAE.analytic_exp_recon_loss x)
          /\ keeps_module (LinearVAE.analytic_elbo x z)
          /\ keeps_module (LinearVAE.encode x)
          /\ keeps_module (LinearVAE.forward x)
          /\ keeps_module (LinearVAE.get_reconstruction_loss x)
          /\ keeps_module (LinearBatchVAE.encode x)
          /\ keeps_module (LinearBatchVAE.forward x B)
          /\ keeps_module (LinearBatchVAE.get_reconstruction_loss x B)).
Proof.
  destruct (init_returns input_dim_arg hidden_dim_arg init_scale analytic depth lk
              basis bias_arg g)
    as (self & g' & Hinit & _ & _ & _ & _ & HPsi & Hdim & Hwf & Hfirst).
  exists self, g'. split; [exact Hinit|]. split; [exact HPsi|].
  split; [rewrite HPsi; exact Hdim|].
  split; [intros b ->; exact Hdim|].
  split; [exact Hfirst|].
  split; [exact (proj2 (proj2 (proj2 Hwf)))|].
  split; [left; reflexivity|].
  split; [apply Psi_is_no_parameter|].
  intros x eta z B.
  repeat split;
    auto using keeps_gaussian_kl, keeps_recon_model_loglik,
      keeps_analytic_exp_recon_loss, keeps_analytic_elbo, keeps_encode, keeps_forward,
      keeps_get_reconstruction_loss, keeps_batch_encode, keeps_batch_forward,
      keeps_batch_get_reconstruction_loss.
Qed.

(** The stored [input_dim] of a module built with [input_dim=10] on the 1 x 1
    basis is 1. *)
Example stored_input_dim_overrides_argument :
  exists self g',
    LinearVAE.__init__ (E := toy_externals) 10 3 0.001 true 1 "gaussian"
      (Some toy_basis) false counting = (Ok self, g')
    /\ input_dim self = 1%nat.
Proof.
  destruct (init_returns (E := toy_externals) 10 3 0.001 true 1 "gaussian"
              (Some toy_basis) false counting)
    as (self & g' & Hinit & _ & _ & _ & _ & _ & Hdim & _).
  exists self, g'. split; [exact Hinit|]. rewrite Hdim. reflexivity.
Qed.

(** ** An unknown likelihood name *)

Lemma prefix_append (s t : string) : String.prefix s (s ++ t) = true.
Proof.
  induction s as [|a s IH]; cbn.
  - destruct t; reflexivity.
  - destruct (Ascii.ascii_dec a a); [exact IH | congruence].
Qed.

Section Unknown.
Context `{E : Externals}.

Lemma recon_model_loglik_unknown (st : State) (x eta : Tensor) :
  ~ known_likelihood (likelihood (self_ st)) ->
  LinearVAE.recon_model_loglik x eta st
  = (Raise (not_specified (likelihood (self_ st))), st).
Proof.
  intros Hlk. unfold LinearVAE.recon_model_loglik, bind, get_self.
  destruct (String.eqb_spec (likelihood (self_ st)) "gaussian") as [H|_];
    [exfalso; apply Hlk; left; exact H|].
  destruct (String.eqb_spec (likelihood (self_ st)) "multinomial") as [H|_];
    [exfalso; apply Hlk; right; left; exact H|].
  destruct (String.eqb_spec (likelihood (self_ st)) "lognormal") as [H|_];
    [exfalso; apply Hlk; right; right; exact H|].
  reflexivity.
Qed.

Lemma reparameterize_self (self : LinearVAE) (z : Tensor) (st : State) :
  self_ (snd (LinearVAE.reparameterize self z st)) = self_ st.
Proof. apply keeps_reparameterize. Qed.

Lemma forward_sampling_unknown (st : State) (x : Tensor) :
  ~ known_likelihood (likelihood (self_ st)) ->
  use_analytic_elbo (self_ st) = false ->
  exists e, fst (LinearVAE.forward x st) = Raise e.
Proof.
  intros Hlk Hmode. unfold LinearVAE.forward, bind, get_self. unfold lift at 1 2.
  rewrite Hmode. cbn [negb].
  destruct (ilr (imputer x) (Psi (self_ st))) as [x_|e]; [|eexists; reflexivity].
  destruct (encoder_forward (encoder (self_ st)) x_) as [z|e]; [|eexists; reflexivity].
  pose proof (reparameterize_self (self_ st) z st) as Hself.
  destruct (LinearVAE.reparameterize (self_ st) z st) as [[zs|e] st'];
    [|eexists; reflexivity].
  cbn [snd] in Hself. unfold lift at 1.
  destruct (nn.Linear_forward (decoder (self_ st)) zs) as [x_out|e];
    [|eexists; reflexivity].
  destruct (LinearVAE.gaussian_kl z (logvars_tensor (self_ st)) st') as [[kl|e] st'']
    eqn:Hkl; [|eexists; reflexivity].
  assert (Hst : st'' = st').
  { unfold LinearVAE.gaussian_kl, lift in Hkl. congruence. }
  subst st''. rewrite recon_model_loglik_unknown by (rewrite Hself; exact Hlk).
  eexists. reflexivity.
Qed.

Lemma forward_sampling_unknown_value (st : State) (x x_ : Tensor) (n : nat) :
  ~ known_likelihood (likelihood (self_ st)) ->
  use_analytic_elbo (self_ st) = false ->
  wf (self_ st) ->
  ilr (imputer x) (Psi (self_ st)) = Ok x_ ->
  shape x_ = [n; input_dim (self_ st)] ->
  fst (LinearVAE.forward x st) = Raise (not_specified (likelihood (self_ st))).
Proof.
  intros Hlk Hmode (HPsi & Henc & Hdin & Hdout) Hilr Hx_.
  destruct (encoder_forward_ok _ x_ n _ _ Henc Hx_) as (z_mean & Hz & Sz).
  destruct (reparameterize_ok (self_ st) z_mean n st Sz) as (zs & Hzs & Szs & _).
  destruct (Linear_forward_ok (decoder (self_ st)) zs n) as (x_out & Hxo & _);
    [congruence|].
  destruct (gaussian_kl_ok (self_ st) z_mean n (after_noise st n) Sz) as (g & Hg & _).
  unfold LinearVAE.forward, bind, get_self. unfold lift at 1 2.
  rewrite Hilr, Hz, Hmode. cbn [negb]. rewrite Hzs. unfold lift at 1.
  rewrite Hxo. fold (after_noise st n). rewrite Hg.
  rewrite recon_model_loglik_unknown by exact Hlk. reflexivity.
Qed.

End Unknown.

(** C7. With a likelihood name outside gaussian, multinomial and lognormal the
    constructor succeeds and keeps the name; every call of
    [recon_model_loglik] raises the ValueError whose message starts with the
    name; the sampling [forward] never returns a loss, and raises that error
    once the input has passed the ILR transform. *)
Theorem unknown_likelihood_raises `{E : Externals} (lk : string) :
  ~ known_likelihood lk ->
  (forall input_dim_arg hidden_dim_arg init_scale analytic depth basis bias_arg g,
     exists self g',
       LinearVAE.__init__ input_dim_arg hidden_dim_arg init_scale analytic depth lk
         basis bias_arg g = (Ok self, g')
       /\ likelihood self = lk)
  /\ (forall st x eta,
        likelihood (self_ st) = lk ->
        LinearVAE.recon_model_loglik x eta st
        = (Raise (ValueError (lk ++ " has not be properly specified.")), st))
  /\ String.prefix lk (lk ++ " has not be properly specified.") = true
  /\ (forall st x,
        likelihood (self_ st) = lk ->
        use_analytic_elbo (self_ st) = false ->
        exists e, fst (LinearVAE.forward x st) = Raise e)
  /\ (forall st x x_ n,
        likelihood (self_ st) = lk ->
        use_analytic_elbo (self_ st) = false ->
        wf (self_ st) ->
        ilr (imputer x) (Psi (self_ st)) = Ok x_ ->
        shape x_ = [n; input_dim (self_ st)] ->
        (0 < n)%nat ->
        fst (LinearVAE.forward x st)
        = Raise (ValueError (lk ++ " has not be properly specified."))).
Proof.
  intros Hlk. split; [|split; [|split; [|split]]].
  - intros input_dim_arg hidden_dim_arg init_scale analytic depth basis bias_arg g.
    destruct (init_returns input_dim_arg hidden_dim_arg init_scale analytic depth lk
                basis bias_arg g) as (self & g' & Hinit & _ & _ & Hl & _).
    exists self, g'. split; assumption.
  - intros st x eta Hst. rewrite recon_model_loglik_unknown by (rewrite Hst; exact Hlk).
    rewrite Hst. reflexivity.
  - apply prefix_append.
  - intros st x Hst Hmode. apply forward_sampling_unknown; [rewrite Hst|]; assumption.
  - intros st x x_ n Hst Hmode Hwf Hilr Hx_ Hn.
    rewrite (forward_sampling_unknown_value st x x_ n) by (rewrite ?Hst; assumption).
    rewrite Hst. reflexivity.
Qed.

(** ** The log-normal branch *)

Section LogNormal.
Context `{E : Externals}.

(** The branch stops at the lookup of [F.logsoftmax], for every input. *)
Lemma lognormal_branch_raises (st : State) (x eta : Tensor) :
  likelihood (self_ st) = "lognormal"%string ->
  LinearVAE.recon_model_loglik x eta st
  = (Raise (AttributeError
              "module 'torch.nn.functional' has no attribute 'logsoftmax'"), st).
Proof.
  intros Hlk. unfold LinearVAE.recon_model_loglik, bind, get_self. rewrite Hlk.
  reflexivity.
Qed.

(** Were the log-softmax found, the location parameter of a square input
    ([n] samples of [n] features) would add to the entry of sample [i] and
    feature [j] the log of the total of sample [j]. *)
Lemma lognormal_mu_square (self : LinearVAE) (x eta : Tensor) (n r : nat) :
  shape (Psi self) = [r; n] ->
  shape x = [n; n] ->
  shape eta = [n; r] ->
  exists logp mu,
    (psi_t <~ t_ (Psi self) ;; eta_t <~ t_ eta ;; p <~ matmul psi_t eta_t ;;
     p_t <~ t_ p ;; Ok (log_softmax p_t)) = Ok logp
    /\ LinearVAE.lognormal_mu (fun a => Ok (log_softmax a)) self x eta = Ok mu
    /\ forall i j, (i < n)%nat -> (j < n)%nat ->
         at2 mu i j = at2 logp i j + ln (big_sum n (fun l => at2 x j l)).
Proof.
  intros HPsi Hx Heta. unfold LinearVAE.lognormal_mu.
  rewrite (t_shape2 _ r n HPsi). cbn [rbind].
  rewrite (t_shape2 _ n r Heta). cbn [rbind].
  rewrite (matmul_shape2 _ _ n r n) by reflexivity. cbn [rbind].
  rewrite (t_shape2 _ n n) by reflexivity. cbn [rbind].
  match goal with |- context [tadd ?a ?b] =>
    destruct (binop_row_vector Rplus a b n n) as (mu & Hmu & Smu & Emu)
  end.
  - reflexivity.
  - unfold tlog, tmap, sum_last. rewrite Hx. reflexivity.
  - eexists _, mu. split; [reflexivity|]. split; [exact Hmu|].
    intros i j Hi Hj. rewrite (Emu i j Hi Hj). f_equal.
    unfold at1, tlog, tmap, sum_last. rewrite Hx. reflexivity.
Qed.

End LogNormal.

(** C6, at an input: one sample with the positive count 3. The claim has the
    branch return the mean log-density; the code raises. *)
Theorem lognormal_loglik_raises_at_input :
  fst (LinearVAE.recon_model_loglik (E := toy_externals) (one_sample 3) (one_sample 0)
         (toy_state "lognormal" false))
  = Raise (AttributeError "module 'torch.nn.functional' has no attribute 'logsoftmax'").
Proof. reflexivity. Qed.

(** With the log-softmax in place, two samples of three features do not
    broadcast: the totals are laid along the features. *)
Example lognormal_mu_two_by_three :
  LinearVAE.lognormal_mu (fun a => Ok (log_softmax a))
    (mkLinearVAE false 1 "lognormal" false 1 (tensor2 1 3 (fun _ _ => 1))
       (EncLinear toy_encoder) toy_decoder (fun _ => 0) 0)
    (tensor2 2 3 (fun _ _ => 1)) (tensor2 2 1 (fun _ _ => 0))
  = Raise (RuntimeError "The size of tensor a must match the size of tensor b").
Proof. reflexivity. Qed.

(** ** The batch-aware variant *)

Lemma projected_entry (P B : Tensor) (n r c i j : nat) :
  at2 (projected P B n r c) i j = big_sum c (fun l => at2 P j l * at2 B i l).
Proof. reflexivity. Qed.

Lemma batch_effects_value (self : LinearVAE) (B : Tensor) (n r c : nat) :
  shape (Psi self) = [r; c] ->
  shape B = [n; c] ->
  LinearBatchVAE.batch_effects_of self B = Ok (projected (Psi self) B n r c).
Proof.
  intros HPsi HB. unfold LinearBatchVAE.batch_effects_of.
  rewrite (t_shape2 B n c HB). cbn [rbind].
  rewrite (matmul_shape2 _ _ r c n) by (assumption || reflexivity). cbn [rbind].
  rewrite (t_shape2 _ r n) by reflexivity. reflexivity.
Qed.

Section Batch.
Context `{E : Externals}.

Lemma batch_z_mean_ok (st : State) (x B hx : Tensor) (n : nat) :
  wf (self_ st) ->
  ilr (imputer x) (Psi (self_ st)) = Ok hx ->
  shape hx = [n; input_dim (self_ st)] ->
  shape B = [n; Psi_cols (self_ st)] ->
  exists hx' z_mean,
    inplace Rminus hx
      (projected (Psi (self_ st)) B n (input_dim (self_ st)) (Psi_cols (self_ st)))
    = Ok hx'
    /\ shape hx' = [n; input_dim (self_ st)]
    /\ (forall i j, (i < n)%nat -> (j < input_dim (self_ st))%nat ->
          at2 hx' i j
          = at2 hx i j
            - big_sum (Psi_cols (self_ st))
                (fun l => at2 (Psi (self_ st)) j l * at2 B i l))
    /\ encoder_forward (encoder (self_ st)) hx' = Ok z_mean
    /\ shape z_mean = [n; hidden_dim (self_ st)]
    /\ batch_z_mean x B st = (Ok z_mean, st).
Proof.
  intros (HPsi & Henc & Hdin & Hdout) Hilr Hhx HB.
  set (off := projected (Psi (self_ st)) B n (input_dim (self_ st)) (Psi_cols (self_ st))).
  destruct (inplace_same_shape2 Rminus hx off n (input_dim (self_ st)) Hhx eq_refl)
    as (hx' & Hhx' & Shx' & Ehx').
  destruct (encoder_forward_ok _ hx' n _ _ Henc Shx') as (z & Hz & Sz).
  exists hx', z. split; [exact Hhx'|]. split; [exact Shx'|].
  split; [intros i j Hi Hj; rewrite (Ehx' i j Hi Hj); reflexivity|].
  split; [exact Hz|]. split; [exact Sz|].
  unfold batch_z_mean, bind, get_self, lift.
  rewrite Hilr, (batch_effects_value _ B n _ _ HPsi HB).
  fold off. rewrite Hhx', Hz. reflexivity.
Qed.

End Batch.


Lemma affine_difference (l : nn.Linear) (a b : Tensor) (i k : nat) :
  affine l a i k - affine l b i k
  = big_sum (nn.in_features l) (fun j => (at2 a i j - at2 b i j) * nn.weight l k j).
Proof.
  unfold affine.
  rewrite (big_sum_ext _ (fun j => (at2 a i j - at2 b i j) * nn.weight l k j)
             (fun j => at2 a i j * nn.weight l k j - at2 b i j * nn.weight l k j))
    by (intros; ring).
  rewrite big_sum_minus. destruct (nn.bias l); ring.
Qed.

(** C4 (as amended). For a fixed input and two batch matrices, the input of
    the encoder in [LinearBatchVAE.forward] differs by the negated projected
    difference [(Psi . (B1 - B2)^T)^T], and the latent mean of a single-layer
    encoder by the encoder weight applied to that. *)
Theorem batch_latent_mean_difference `{E : Externals}
    (st : State) (x B1 B2 hx : Tensor) (n : nat) (l : nn.Linear) :
  wf (self_ st) ->
  encoder (self_ st) = EncLinear l ->
  ilr (imputer x) (Psi (self_ st)) = Ok hx ->
  shape hx = [n; input_dim (self_ st)] ->
  shape B1 = [n; Psi_cols (self_ st)] ->
  shape B2 = [n; Psi_cols (self_ st)] ->
  exists hx1 hx2 z1 z2,
    inplace Rminus hx
      (projected (Psi (self_ st)) B1 n (input_dim (self_ st)) (Psi_cols (self_ st)))
    = Ok hx1
    /\ inplace Rminus hx
         (projected (Psi (self_ st)) B2 n (input_dim (self_ st)) (Psi_cols (self_ st)))
       = Ok hx2
    /\ (forall i j, (i < n)%nat -> (j < input_dim (self_ st))%nat ->
          at2 hx1 i j - at2 hx2 i j
          = - big_sum (Psi_cols (self_ st))
                (fun c => at2 (Psi (self_ st)) j c * (at2 B1 i c - at2 B2 i c)))
    /\ batch_z_mean x B1 st = (Ok z1, st)
    /\ batch_z_mean x B2 st = (Ok z2, st)
    /\ (forall i k, (i < n)%nat -> (k < hidden_dim (self_ st))%nat ->
          at2 z1 i k - at2 z2 i k
          = - big_sum (input_dim (self_ st)) (fun j =>
                big_sum (Psi_cols (self_ st))
                  (fun c => at2 (Psi (self_ st)) j c * (at2 B1 i c - at2 B2 i c))
                * nn.weight l k j)).
Proof.
  intros Hwf Henc Hilr Hhx HB1 HB2.
  destruct (batch_z_mean_ok st x B1 hx n Hwf Hilr Hhx HB1)
    as (hx1 & z1 & Hhx1 & Shx1 & Ehx1 & Hz1 & Sz1 & Hzm1).
  destruct (batch_z_mean_ok st x B2 hx n Hwf Hilr Hhx HB2)
    as (hx2 & z2 & Hhx2 & Shx2 & Ehx2 & Hz2 & Sz2 & Hzm2).
  destruct Hwf as (HPsi & Hewf & Hdin & Hdout).
  rewrite Henc in Hewf, Hz1, Hz2. cbn [encoder_wf encoder_forward] in Hewf, Hz1, Hz2.
  destruct Hewf as [Hlin Hlout].
  assert (Hdiff : forall i j, (i < n)%nat -> (j < input_dim (self_ st))%nat ->
            at2 hx1 i j - at2 hx2 i j
            = - big_sum (Psi_cols (self_ st))
                  (fun c => at2 (Psi (self_ st)) j c * (at2 B1 i c - at2 B2 i c))).
  { intros i j Hi Hj. rewrite (Ehx1 i j Hi Hj), (Ehx2 i j Hi Hj).
    rewrite (big_sum_ext _ (fun c => at2 (Psi (self_ st)) j c * (at2 B1 i c - at2 B2 i c))
               (fun c => at2 (Psi (self_ st)) j c * at2 B1 i c
                         - at2 (Psi (self_ st)) j c * at2 B2 i c))
      by (intros; ring).
    rewrite big_sum_minus. ring. }
  exists hx1, hx2, z1, z2. repeat (split; [assumption|]).
  intros i k Hi Hk.
  destruct (Linear_forward_ok l hx1 n) as (y1 & Hy1 & _ & Ey1); [congruence|].
  destruct (Linear_forward_ok l hx2 n) as (y2 & Hy2 & _ & Ey2); [congruence|].
  assert (y1 = z1) by congruence. assert (y2 = z2) by congruence. subst y1 y2.
  rewrite Hlout in Ey1, Ey2.
  rewrite (Ey1 i k Hi Hk), (Ey2 i k Hi Hk), affine_difference, Hlin.
  rewrite <- big_sum_opp. apply big_sum_ext. intros j Hj.
  rewrite (Hdiff i j Hi Hj). ring.
Qed.

(** The claim C4 as it is worded fails on the toy module: with the batch
    matrices (1) and (0) the latent means differ by -2 and the projected
    difference is 1; [LinearBatchVAE.encode] does not read a batch matrix. *)
Lemma batch_latent_mean_counterexample :
  exists z1 z2 d ze,
    batch_z_mean (E := toy_externals) (one_sample 0) (one_sample 1)
      (toy_state "gaussian" false) = (Ok z1, toy_state "gaussian" false)
    /\ batch_z_mean (E := toy_externals) (one_sample 0) (one_sample 0)
         (toy_state "gaussian" false) = (Ok z2, toy_state "gaussian" false)
    /\ (b <~ tsub (one_sample 1) (one_sample 0) ;;
        LinearBatchVAE.batch_effects_of (toy_module "gaussian" false) b) = Ok d
    /\ LinearBatchVAE.encode (E := toy_externals) (one_sample 0)
         (toy_state "gaussian" false) = (Ok ze, toy_state "gaussian" false)
    /\ at2 z1 0 0 - at2 z2 0 0 = -2
    /\ at2 d 0 0 = 1
    /\ at2 z1 0 0 - at2 z2 0 0 <> at2 d 0 0
    /\ at2 z2 0 0 - at2 z1 0 0 <> at2 d 0 0
    /\ at2 ze 0 0 - at2 ze 0 0 <> at2 d 0 0.
Proof.
  eexists _, _, _, _.
  split; [reflexivity|]. split; [reflexivity|]. split; [reflexivity|].
  split; [reflexivity|].
  unfold at2. cbn. repeat split; lra.
Qed.

(** ** Noise and determinism *)

Section Determinism.
Context `{E : Externals}.

Lemma recon_model_loglik_rng (x eta : Tensor) (self : LinearVAE) (g g' : Generator) :
  fst (LinearVAE.recon_model_loglik x eta (mkState self g'))
  = fst (LinearVAE.recon_model_loglik x eta (mkState self g)).
Proof.
  unfold LinearVAE.recon_model_loglik, bind, get_self, lift, raise. cbn [self_].
  repeat match goal with
         | |- context [if ?b then _ else _] => destruct b
         end; reflexivity.
Qed.

(** The batch-aware reconstruction loss reads the generator nowhere. *)
Lemma batch_reconstruction_loss_pure (x B : Tensor) (self : LinearVAE)
    (g g' : Generator) :
  LinearBatchVAE.get_reconstruction_loss x B (mkState self g')
  = (fst (LinearBatchVAE.get_reconstruction_loss x B (mkState self g)),
     mkState self g').
Proof.
  unfold LinearBatchVAE.get_reconstruction_loss, bind, get_self, lift, ret.
  cbn [self_].
  repeat case_result; try reflexivity.
  all: rewrite (recon_model_loglik_eta x _ (mkState self g')),
         (recon_model_loglik_eta x _ (mkState self g)),
         (recon_model_loglik_rng x _ self g g').
  all: case_result; reflexivity.
Qed.

(** The sampling reconstruction loss of the base class consumes the noise
    of one draw. *)
Lemma reconstruction_loss_draws (st : State) (x x_ : Tensor) (n : nat) :
  wf (self_ st) ->
  use_analytic_elbo (self_ st) = false ->
  ilr (imputer x) (Psi (self_ st)) = Ok x_ ->
  shape x_ = [n; input_dim (self_ st)] ->
  snd (LinearVAE.get_reconstruction_loss x st) = after_noise st n.
Proof.
  intros (HPsi & Henc & Hdin & Hdout) Hmode Hilr Hx_.
  destruct (encoder_forward_ok _ x_ n _ _ Henc Hx_) as (z_mean & Hz & Sz).
  destruct (reparameterize_ok (self_ st) z_mean n st Sz) as (zs & Hzs & Szs & Ezs).
  unfold LinearVAE.get_reconstruction_loss, bind, get_self. unfold lift at 1 2.
  rewrite Hilr, Hmode, Hz, Hzs. fold (after_noise st n).
  unfold lift at 1.
  destruct (nn.Linear_forward (decoder (self_ st)) zs) as [x_out|e]; [|reflexivity].
  rewrite (recon_model_loglik_eta x x_out (after_noise st n)).
  case_result; reflexivity.
Qed.

End Determinism.

(** C10. [LinearBatchVAE.get_reconstruction_loss] decodes the mean and draws
    no noise: its result is the same under every state of the generator, which
    it leaves untouched; the sampling [get_reconstruction_loss] of the base
    class consumes a draw in every call, and two calls in a row on the toy
    module return different losses. *)
Theorem batch_reconstruction_loss_deterministic `{E : Externals}
    (x B : Tensor) (self : LinearVAE) (g g' : Generator) :
  fst (LinearBatchVAE.get_reconstruction_loss x B (mkState self g))
  = fst (LinearBatchVAE.get_reconstruction_loss x B (mkState self g'))
  /\ snd (LinearBatchVAE.get_reconstruction_loss x B (mkState self g)) = mkState self g
  /\ (forall x_ n,
        wf self ->
        use_analytic_elbo self = false ->
        ilr (imputer x) (Psi self) = Ok x_ ->
        shape x_ = [n; input_dim self] ->
        snd (LinearVAE.get_reconstruction_loss x (mkState self g))
        = mkState self (advance (n * hidden_dim self) g))
  /\ exists r1 r2 st1 st2,
       LinearVAE.get_reconstruction_loss (E := toy_externals) (one_sample 0)
         (toy_state "gaussian" false) = (Ok r1, st1)
       /\ LinearVAE.get_reconstruction_loss (E := toy_externals) (one_sample 0) st1
          = (Ok r2, st2)
       /\ at2 r1 0 0 <> at2 r2 0 0.
Proof.
  split; [|split; [|split]].
  - rewrite (batch_reconstruction_loss_pure x B self g g'). reflexivity.
  - rewrite (batch_reconstruction_loss_pure x B self g g). reflexivity.
  - intros x_ n Hwf Hmode Hilr Hx_.
    exact (reconstruction_loss_draws (mkState self g) x x_ n Hwf Hmode Hilr Hx_).
  - eexists _, _, _, _. split; [reflexivity|]. split; [reflexivity|].
    unfold at2. cbn. unfold LOG_2_PI.
    replace (0 + 1) with 1 by lra. rewrite ln_1.
    replace (0.5 * 0) with 0 by lra. rewrite exp_0. lra.
Qed.

(** ** The theorems at the toy module *)

Lemma poisson_unknown : ~ known_likelihood "poisson".
Proof. intros [H|[H|H]]; discriminate H. Defined.

Lemma unknown_likelihood_raises_witness :
  LinearVAE.recon_model_loglik (E := toy_externals) (one_sample 3) (one_sample 1)
    (toy_state "poisson" false)
  = (Raise (ValueError "poisson has not be properly specified."),
     toy_state "poisson" false).
Proof.
  exact (proj1 (proj2 (unknown_likelihood_raises (E := toy_externals) "poisson"
                         poisson_unknown))
           (toy_state "poisson" false) (one_sample 3) (one_sample 1) eq_refl).
Defined.


Lemma batch_latent_mean_difference_witness :
  exists z1 z2,
    batch_z_mean (E := toy_externals) (one_sample 3) (one_sample 1)
      (toy_state "gaussian" false)
    = (Ok z1, toy_state "gaussian" false)
    /\ batch_z_mean (E := toy_externals) (one_sample 3) (one_sample 0)
         (toy_state "gaussian" false)
       = (Ok z2, toy_state "gaussian" false)
    /\ at2 z1 0 0 - at2 z2 0 0
       = - big_sum 1 (fun j =>
             big_sum 1 (fun c => at2 toy_Psi j c
                                 * (at2 (one_sample 1) 0 c - at2 (one_sample 0) 0 c))
             * 2).
Proof.
  destruct (batch_latent_mean_difference (E := toy_externals)
              (toy_state "gaussian" false) (one_sample 3) (one_sample 1) (one_sample 0)
              _ 1 toy_encoder (toy_wf _ _) eq_refl (toy_ilr 3) eq_refl eq_refl eq_refl)
    as (hx1 & hx2 & z1 & z2 & _ & _ & _ & Hz1 & Hz2 & Hd).
  exists z1, z2. split; [exact Hz1|]. split; [exact Hz2|].
  exact (Hd 0%nat 0%nat Nat.lt_0_1 Nat.lt_0_1).
Defined.

(** * Further properties *)

Lemma big_sum_nonneg (n : nat) (f : nat -> R) :
  (forall i, (i < n)%nat -> 0 <= f i) -> 0 <= big_sum n f.
Proof.
  induction n as [|n IH]; intros Hf; simpl; [lra|].
  assert (0 <= big_sum n f) by (apply IH; intros; apply Hf; lia).
  assert (0 <= f n) by (apply Hf; lia). lra.
Qed.


Lemma kl_quantity_nonpositive (m lv : R) : kl_quantity m lv <= 0.
Proof.
  unfold kl_quantity. pose proof (exp_ineq1_le lv). nra.
Qed.


Lemma kl_term_nonneg (self : LinearVAE) (z : Tensor) (n : nat) :
  (0 < n)%nat -> 0 <= kl_term self z n.
Proof.
  intros Hn. unfold kl_term. apply Rmult_le_pos.
  - apply big_sum_nonneg. intros i _. apply big_sum_nonneg. intros k _.
    pose proof (kl_quantity_nonpositive (at2 z i k) (variational_logvars self k)). lra.
  - left. apply Rinv_0_lt_compat. apply lt_0_INR. exact Hn.
Qed.









Section Stages.
Context `{E : Externals}.

(** The statements of the sampling path up to the likelihood. *)
Lemma sampling_stages (st : State) (x_ : Tensor) (n : nat) :
  wf (self_ st) ->
  shape x_ = [n; input_dim (self_ st)] ->
  exists z_mean z_sample x_out g,
    encoder_forward (encoder (self_ st)) x_ = Ok z_mean
    /\ shape z_mean = [n; hidden_dim (self_ st)]
    /\ LinearVAE.reparameterize (self_ st) z_mean st = (Ok z_sample, after_noise st n)
    /\ shape z_sample = [n; hidden_dim (self_ st)]
    /\ nn.Linear_forward (decoder (self_ st)) z_sample = Ok x_out
    /\ shape x_out = [n; input_dim (self_ st)]
    /\ (forall i j, (i < n)%nat -> (j < input_dim (self_ st))%nat ->
          at2 x_out i j = affine (decoder (self_ st)) z_sample i j)
    /\ LinearVAE.gaussian_kl z_mean (logvars_tensor (self_ st)) (after_noise st n)
       = (Ok g, after_noise st n)
    /\ tsum (mean0 (tneg g)) = scalar (kl_term (self_ st) z_mean n).
Proof.
  intros (HPsi & Henc & Hdin & Hdout) Hx_.
  destruct (encoder_forward_ok _ x_ n _ _ Henc Hx_) as (z_mean & Hz & Sz).
  destruct (reparameterize_ok (self_ st) z_mean n st Sz) as (zs & Hzs & Szs & Ezs).
  destruct (Linear_forward_ok (decoder (self_ st)) zs n) as (x_out & Hxo & Sxo & Exo);
    [congruence|].
  rewrite Hdout in Sxo, Exo.
  destruct (gaussian_kl_ok (self_ st) z_mean n (after_noise st n) Sz)
    as (g & Hg & Sg & Eg).
  exists z_mean, zs, x_out, g. repeat (split; [assumption|]).
  apply (kl_div_value (self_ st) z_mean g n Sg Eg).
Qed.

Lemma forward_sampling_run (st : State) (x x_ : Tensor) (n : nat) :
  wf (self_ st) ->
  use_analytic_elbo (self_ st) = false ->
  ilr (imputer x) (Psi (self_ st)) = Ok x_ ->
  shape x_ = [n; input_dim (self_ st)] ->
  exists z_mean z_sample x_out,
    encoder_forward (encoder (self_ st)) x_ = Ok z_mean
    /\ shape z_sample = [n; hidden_dim (self_ st)]
    /\ nn.Linear_forward (decoder (self_ st)) z_sample = Ok x_out
    /\ shape x_out = [n; input_dim (self_ st)]
    /\ LinearVAE.forward x st
       = (ll <~ fst (LinearVAE.recon_model_loglik x x_out (after_noise st n)) ;;
          Ok (scalar (kl_term (self_ st) z_mean n + value (tsum (mean0 (tneg ll))))),
          after_noise st n)
    /\ LinearVAE.get_reconstruction_loss x st
       = (ll <~ fst (LinearVAE.recon_model_loglik x x_out (after_noise st n)) ;;
          Ok (tneg ll),
          after_noise st n).
Proof.
  intros Hwf Hmode Hilr Hx_.
  destruct (sampling_stages st x_ n Hwf Hx_)
    as (z & zs & x_out & g & Hz & Sz & Hzs & Szs & Hxo & Sxo & _ & Hg & Hkl).
  exists z, zs, x_out. repeat (split; [assumption|]). split.
  - unfold LinearVAE.forward, bind, get_self. unfold lift at 1 2.
    rewrite Hilr, Hz, Hmode. cbn [negb]. rewrite Hzs. unfold lift at 1.
    rewrite Hxo, Hg.
    rewrite (recon_model_loglik_eta x x_out (after_noise st n)).
    destruct (fst (LinearVAE.recon_model_loglik x x_out (after_noise st n))) as [ll|e];
      [|reflexivity].
    cbn [rbind]. unfold lift.
    rewrite Hkl, (tsum_is_scalar (mean0 (tneg ll))), tadd_scalar. reflexivity.
  - unfold LinearVAE.get_reconstruction_loss, bind, get_self. unfold lift at 1 2.
    rewrite Hilr, Hmode, Hz, Hzs. unfold lift at 1. rewrite Hxo.
    rewrite (recon_model_loglik_eta x x_out (after_noise st n)).
    destruct (fst (LinearVAE.recon_model_loglik x x_out (after_noise st n))) as [ll|e];
      reflexivity.
Qed.

End Stages.

(** X4. With the sampling objective and one state of the generator,
    [forward] returns the KL term of [encode(x)], which is not negative, plus
    [get_reconstruction_loss(x).mean(0).sum()], and both leave the generator
    in the same state. *)
Theorem forward_splits_sampling `{E : Externals} (st : State) (x x_ : Tensor) (n : nat) :
  wf (self_ st) ->
  use_analytic_elbo (self_ st) = false ->
  ilr (imputer x) (Psi (self_ st)) = Ok x_ ->
  shape x_ = [n; input_dim (self_ st)] ->
  (0 < n)%nat ->
  exists z_mean,
    LinearVAE.encode x st = (Ok z_mean, st)
    /\ 0 <= kl_term (self_ st) z_mean n
    /\ LinearVAE.forward x st
       = (r <~ fst (LinearVAE.get_reconstruction_loss x st) ;;
          Ok (scalar (kl_term (self_ st) z_mean n + value (tsum (mean0 r)))),
          snd (LinearVAE.get_reconstruction_loss x st)).
Proof.
  intros Hwf Hmode Hilr Hx_ Hn.
  destruct (forward_sampling_run st x x_ n Hwf Hmode Hilr Hx_)
    as (z & zs & x_out & Hz & _ & _ & _ & Hf & Hr).
  exists z. split.
  - unfold LinearVAE.encode, bind, get_self, lift, ret. rewrite Hilr, Hz. reflexivity.
  - split; [apply kl_term_nonneg; exact Hn|].
    rewrite Hf, Hr. cbn [fst snd].
    destruct (fst (LinearVAE.recon_model_loglik x x_out (after_noise st n))); reflexivity.
Qed.



Lemma matmul_mismatch (a b : Tensor) (n k k' m : nat) :
  shape a = [n; k] -> shape b = [k'; m] -> k <> k' ->
  matmul a b = Raise shape_error.
Proof.
  intros Ha Hb Hk. unfold matmul, mm. rewrite Ha, Hb.
  destruct (Nat.eqb_spec k k'); [contradiction | reflexivity].
Qed.

Section Branches.
Context `{E : Externals}.

Lemma gaussian_columns (st : State) (x eta : Tensor) (m c r c' : nat) :
  likelihood (self_ st) = "gaussian"%string ->
  shape (Psi (self_ st)) = [r; c'] ->
  shape x = [m; c] ->
  c <> r ->
  LinearVAE.recon_model_loglik x eta st = (Raise shape_error, st).
Proof.
  intros Hlk HPsi Hx Hc.
  unfold LinearVAE.recon_model_loglik, bind, get_self. rewrite Hlk.
  cbn [String.eqb Ascii.eqb Bool.eqb]. unfold lift.
  rewrite (t_shape2 (Psi (self_ st)) r c' HPsi). cbn [rbind].
  rewrite (t_shape2 (tlog (tmap (fun v => v + 1) x)) m c) by exact Hx.
  cbn [rbind].
  rewrite (matmul_mismatch _ _ c' r c m) by (reflexivity || congruence).
  reflexivity.
Qed.



End Branches.

(** X5. With the Gaussian likelihood an input whose number of columns is not
    [input_dim] makes [recon_model_loglik] raise the shape error of the
    product [Psi.t() @ log(x + 1).t()]; the sampling [forward] and
    [get_reconstruction_loss] raise it after the noise is drawn. *)
Theorem gaussian_needs_input_dim_columns `{E : Externals}
    (st : State) (x : Tensor) (m c : nat) :
  likelihood (self_ st) = "gaussian"%string ->
  wf (self_ st) ->
  shape x = [m; c] ->
  c <> input_dim (self_ st) ->
  (forall eta, LinearVAE.recon_model_loglik x eta st = (Raise shape_error, st))
  /\ (forall x_ n,
        use_analytic_elbo (self_ st) = false ->
        ilr (imputer x) (Psi (self_ st)) = Ok x_ ->
        shape x_ = [n; input_dim (self_ st)] ->
        LinearVAE.forward x st = (Raise shape_error, after_noise st n)
        /\ LinearVAE.get_reconstruction_loss x st = (Raise shape_error, after_noise st n)).
Proof.
  intros Hlk Hwf Hx Hc.
  assert (Hrec : forall eta s, self_ s = self_ st ->
            LinearVAE.recon_model_loglik x eta s = (Raise shape_error, s)).
  { intros eta s Hs. destruct Hwf as (HPsi & _).
    apply (gaussian_columns s x eta m c (input_dim (self_ st)) (Psi_cols (self_ st)));
      rewrite ?Hs; assumption. }
  split; [intros eta; apply Hrec; reflexivity|].
  intros x_ n Hmode Hilr Hx_.
  destruct (forward_sampling_run st x x_ n Hwf Hmode Hilr Hx_)
    as (z & zs & x_out & _ & _ & _ & _ & Hf & Hr).
  rewrite Hf, Hr, (Hrec x_out (after_noise st n)) by reflexivity.
  split; reflexivity.
Qed.



Lemma Linear_forward_mismatch (l : nn.Linear) (x : Tensor) (n c : nat) :
  shape x = [n; c] -> c <> nn.in_features l ->
  nn.Linear_forward l x = Raise shape_error.
Proof.
  intros Hx Hc. unfold nn.Linear_forward.
  rewrite (t_shape2 (nn.weight_tensor l) (nn.out_features l) (nn.in_features l))
    by reflexivity.
  cbn [rbind].
  rewrite (matmul_mismatch x _ n c (nn.in_features l) (nn.out_features l))
    by (assumption || reflexivity).
  reflexivity.
Qed.

Lemma encoder_forward_mismatch `{E : Externals}
    (e : Encoder) (l : nn.Linear) (x : Tensor) (n c : nat) :
  first_layer e = Some l -> shape x = [n; c] -> c <> nn.in_features l ->
  encoder_forward e x = Raise shape_error.
Proof.
  intros Hl Hx Hc. destruct e as [l0|[|[l0|] rest]]; cbn in Hl; try discriminate;
    injection Hl as ->; cbn [encoder_forward Sequential_forward];
    rewrite (Linear_forward_mismatch l x n c Hx Hc); reflexivity.
Qed.

(** X8. When the ILR transform returns a matrix whose width is not the input
    width of the first encoder layer, [encode], [forward] (both objectives)
    and the sampling [get_reconstruction_loss] raise the shape error of the
    product and draw no noise. *)
Theorem ilr_width_mismatch `{E : Externals}
    (st : State) (x x_ : Tensor) (l : nn.Linear) (n c : nat) :
  first_layer (encoder (self_ st)) = Some l ->
  ilr (imputer x) (Psi (self_ st)) = Ok x_ ->
  shape x_ = [n; c] ->
  c <> nn.in_features l ->
  LinearVAE.encode x st = (Raise shape_error, st)
  /\ LinearVAE.forward x st = (Raise shape_error, st)
  /\ LinearBatchVAE.encode x st = (Raise shape_error, st)
  /\ (use_analytic_elbo (self_ st) = false ->
      LinearVAE.get_reconstruction_loss x st = (Raise shape_error, st)).
Proof.
  intros Hl Hilr Hx_ Hc.
  pose proof (encoder_forward_mismatch _ l x_ n c Hl Hx_ Hc) as Henc.
  repeat split.
  - unfold LinearVAE.encode, bind, get_self, lift. rewrite Hilr, Henc. reflexivity.
  - unfold LinearVAE.forward, bind, get_self. unfold lift at 1 2.
    rewrite Hilr, Henc. reflexivity.
  - unfold LinearBatchVAE.encode, bind, get_self, lift. rewrite Hilr, Henc. reflexivity.
  - intros Hmode. unfold LinearVAE.get_reconstruction_loss, bind, get_self.
    unfold lift at 1 2. rewrite Hilr, Hmode, Henc. reflexivity.
Qed.

(** X12. With a single-layer encoder the latent mean of
    [LinearBatchVAE.forward] is the result of [encode] minus the encoder
    weight applied to the offset [(Psi . B^T)^T] (the bias cancels); with a
    batch matrix of zeros the two agree. *)
Theorem batch_latent_mean_vs_encode `{E : Externals}
    (st : State) (x B hx : Tensor) (n : nat) (l : nn.Linear) :
  wf (self_ st) ->
  encoder (self_ st) = EncLinear l ->
  ilr (imputer x) (Psi (self_ st)) = Ok hx ->
  shape hx = [n; input_dim (self_ st)] ->
  shape B = [n; Psi_cols (self_ st)] ->
  exists ze zb,
    LinearBatchVAE.encode x st = (Ok ze, st)
    /\ batch_z_mean x B st = (Ok zb, st)
    /\ (forall i k, (i < n)%nat -> (k < hidden_dim (self_ st))%nat ->
          at2 zb i k
          = at2 ze i k
            - big_sum (input_dim (self_ st)) (fun j =>
                big_sum (Psi_cols (self_ st))
                  (fun c => at2 (Psi (self_ st)) j c * at2 B i c)
                * nn.weight l k j))
    /\ ((forall i c, (i < n)%nat -> (c < Psi_cols (self_ st))%nat -> at2 B i c = 0) ->
        forall i k, (i < n)%nat -> (k < hidden_dim (self_ st))%nat ->
          at2 zb i k = at2 ze i k).
Proof.
  intros Hwf Henc Hilr Hhx HB.
  destruct (batch_z_mean_ok st x B hx n Hwf Hilr Hhx HB)
    as (hx' & zb & Hhx' & Shx' & Ehx' & Hzb & Szb & Hzm).
  destruct Hwf as (HPsi & Hewf & Hdin & Hdout).
  rewrite Henc in Hewf, Hzb. cbn [encoder_wf encoder_forward] in Hewf, Hzb.
  destruct Hewf as [Hlin Hlout].
  destruct (Linear_forward_ok l hx n) as (ze & Hze & _ & Eze); [congruence|].
  destruct (Linear_forward_ok l hx' n) as (y & Hy & _ & Ey); [congruence|].
  assert (y = zb) by congruence. subst y. rewrite Hlout in Eze, Ey.
  assert (Hdiff : forall i k, (i < n)%nat -> (k < hidden_dim (self_ st))%nat ->
            at2 zb i k
            = at2 ze i k
              - big_sum (input_dim (self_ st)) (fun j =>
                  big_sum (Psi_cols (self_ st))
                    (fun c => at2 (Psi (self_ st)) j c * at2 B i c)
                  * nn.weight l k j)).
  { intros i k Hi Hk.
    enough (at2 ze i k - at2 zb i k
            = big_sum (input_dim (self_ st)) (fun j =>
                big_sum (Psi_cols (self_ st))
                  (fun c => at2 (Psi (self_ st)) j c * at2 B i c)
                * nn.weight l k j)) by lra.
    rewrite (Eze i k Hi Hk), (Ey i k Hi Hk), affine_difference, Hlin.
    apply big_sum_ext. intros j Hj. rewrite (Ehx' i j Hi Hj). ring. }
  exists ze, zb. split.
  { unfold LinearBatchVAE.encode, bind, get_self, lift, ret.
    rewrite Hilr, Henc. cbn [encoder_forward]. rewrite Hze. reflexivity. }
  split; [exact Hzm|]. split; [exact Hdiff|].
  intros HB0 i k Hi Hk. rewrite (Hdiff i k Hi Hk).
  rewrite (big_sum_ext _ _ (fun _ => 0)); [rewrite big_sum_zero; lra|].
  intros j Hj.
  rewrite (big_sum_ext _ _ (fun _ => 0)); [rewrite big_sum_zero; lra|].
  intros c Hc. rewrite (HB0 i c Hi Hc). lra.
Qed.


(** Matrices with other numbers of rows, none of them one row for the
    right-hand side: no in-place result. *)
Lemma inplace_rows_mismatch (g : R -> R -> R) (a b : Tensor) (n n' m : nat) :
  shape a = [n; m] -> shape b = [n'; m] -> n' <> n -> n' <> 1%nat ->
  exists msg, inplace g a b = Raise (RuntimeError msg).
Proof.
  intros Ha Hb Hn Hn1. unfold inplace, binop, broadcast_shapes. rewrite Ha, Hb. cbn.
  rewrite Nat.eqb_refl.
  destruct (Nat.eqb_spec n n') as [Heq|_]; [congruence|].
  destruct (Nat.eqb_spec n' 1) as [Heq|_]; [congruence|].
  destruct (Nat.eqb_spec n 1) as [->|_].
  - cbn. unfold list_nat_eqb.
    destruct (list_eq_dec Nat.eq_dec [n'; m] [1%nat; m]) as [Heq|_];
      [congruence | eexists; reflexivity].
  - cbn. eexists. reflexivity.
Qed.

Section BatchRuns.
Context `{E : Externals}.

(** The statements of the batch-aware methods after the encoder input. *)
Lemma batch_forward_run (st : State) (x B hx hx' off : Tensor) (n : nat) :
  wf (self_ st) ->
  ilr (imputer x) (Psi (self_ st)) = Ok hx ->
  LinearBatchVAE.batch_effects_of (self_ st) B = Ok off ->
  inplace Rminus hx off = Ok hx' ->
  shape hx' = [n; input_dim (self_ st)] ->
  (forall t, shape t = [n; input_dim (self_ st)] ->
     exists t', inplace Rplus t off = Ok t' /\ shape t' = [n; input_dim (self_ st)]) ->
  exists z_mean eta_s eta_m,
    batch_z_mean x B st = (Ok z_mean, st)
    /\ shape eta_s = [n; input_dim (self_ st)]
    /\ shape eta_m = [n; input_dim (self_ st)]
    /\ LinearBatchVAE.forward x B st
       = (ll <~ fst (LinearVAE.recon_model_loglik x eta_s (after_noise st n)) ;;
          Ok (scalar (kl_term (self_ st) z_mean n + value (tsum (mean0 (tneg ll))))),
          after_noise st n)
    /\ LinearBatchVAE.get_reconstruction_loss x B st
       = (ll <~ fst (LinearVAE.recon_model_loglik x eta_m st) ;; Ok (tneg ll), st).
Proof.
  intros Hwf Hilr Hoff Hhx' Shx' Hadd.
  destruct (sampling_stages st hx' n Hwf Shx')
    as (z & zs & x_out & g & Hz & Sz & Hzs & Szs & Hxo & Sxo & _ & Hg & Hkl).
  destruct Hwf as (HPsi & Henc & Hdin & Hdout).
  destruct (Linear_forward_ok (decoder (self_ st)) z n) as (x_m & Hxm & Sxm & _);
    [congruence|].
  rewrite Hdout in Sxm.
  destruct (Hadd x_out Sxo) as (eta_s & Hes & Ses).
  destruct (Hadd x_m Sxm) as (eta_m & Hem & Sem).
  exists z, eta_s, eta_m. split.
  { unfold batch_z_mean, bind, get_self, lift. rewrite Hilr, Hoff, Hhx', Hz.
    reflexivity. }
  split; [exact Ses|]. split; [exact Sem|]. split.
  - unfold LinearBatchVAE.forward, bind, get_self. unfold lift at 1 2 3 4.
    rewrite Hilr, Hoff, Hhx', Hz, Hzs. unfold lift at 1 2. rewrite Hxo, Hes, Hg.
    rewrite (recon_model_loglik_eta x eta_s (after_noise st n)).
    destruct (fst (LinearVAE.recon_model_loglik x eta_s (after_noise st n))) as [ll|e];
      [|reflexivity].
    cbn [rbind]. unfold lift.
    rewrite Hkl, (tsum_is_scalar (mean0 (tneg ll))), tadd_scalar. reflexivity.
  - unfold LinearBatchVAE.get_reconstruction_loss, bind, get_self.
    unfold lift at 1 2 3 4 5 6.
    rewrite Hilr, Hoff, Hhx', Hz, Hxm, Hem.
    rewrite (recon_model_loglik_eta x eta_m st).
    destruct (fst (LinearVAE.recon_model_loglik x eta_m st)); reflexivity.
Qed.

Lemma batch_forward_run_rows (st : State) (x B hx : Tensor) (n : nat) :
  wf (self_ st) ->
  ilr (imputer x) (Psi (self_ st)) = Ok hx ->
  shape hx = [n; input_dim (self_ st)] ->
  shape B = [n; Psi_cols (self_ st)] ->
  exists z_mean eta_s eta_m,
    batch_z_mean x B st = (Ok z_mean, st)
    /\ shape eta_s = [n; input_dim (self_ st)]
    /\ shape eta_m = [n; input_dim (self_ st)]
    /\ LinearBatchVAE.forward x B st
       = (ll <~ fst (LinearVAE.recon_model_loglik x eta_s (after_noise st n)) ;;
          Ok (scalar (kl_term (self_ st) z_mean n + value (tsum (mean0 (tneg ll))))),
          after_noise st n)
    /\ LinearBatchVAE.get_reconstruction_loss x B st
       = (ll <~ fst (LinearVAE.recon_model_loglik x eta_m st) ;; Ok (tneg ll), st).
Proof.
  intros Hwf Hilr Hhx HB.
  pose proof Hwf as (HPsi & _).
  pose proof (batch_effects_value _ B n _ _ HPsi HB) as Hoff.
  destruct (inplace_same_shape2 Rminus hx _ n (input_dim (self_ st)) Hhx
              (eq_refl : shape (projected (Psi (self_ st)) B n (input_dim (self_ st))
                                  (Psi_cols (self_ st))) = _))
    as (hx' & Hhx' & Shx' & _).
  apply (batch_forward_run st x B hx hx' _ n Hwf Hilr Hoff Hhx' Shx').
  intros t St.
  destruct (inplace_same_shape2 Rplus t _ n (input_dim (self_ st)) St
              (eq_refl : shape (projected (Psi (self_ st)) B n (input_dim (self_ st))
                                  (Psi_cols (self_ st))) = _))
    as (t' & Ht' & St' & _).
  exists t'. split; assumption.
Qed.

End BatchRuns.


(** X14. A batch matrix whose number of rows is neither 1 nor the number of
    samples makes [LinearBatchVAE.forward] and [get_reconstruction_loss]
    raise a RuntimeError at the subtraction, before any noise is drawn. *)
Theorem batch_matrix_rows_mismatch `{E : Externals}
    (st : State) (x B hx : Tensor) (n m : nat) :
  wf (self_ st) ->
  ilr (imputer x) (Psi (self_ st)) = Ok hx ->
  shape hx = [n; input_dim (self_ st)] ->
  shape B = [m; Psi_cols (self_ st)] ->
  m <> n -> m <> 1%nat ->
  exists msg,
    LinearBatchVAE.forward x B st = (Raise (RuntimeError msg), st)
    /\ LinearBatchVAE.get_reconstruction_loss x B st = (Raise (RuntimeError msg), st).
Proof.
  intros (HPsi & _) Hilr Hhx HB Hmn Hm1.
  pose proof (batch_effects_value _ B m _ _ HPsi HB) as Hoff.
  destruct (inplace_rows_mismatch Rminus hx _ n m (input_dim (self_ st)) Hhx
              (eq_refl : shape (projected (Psi (self_ st)) B m (input_dim (self_ st))
                                  (Psi_cols (self_ st))) = _) Hmn Hm1)
    as (msg & Hraise).
  exists msg. split.
  - unfold LinearBatchVAE.forward, bind, get_self. unfold lift at 1 2 3.
    rewrite Hilr, Hoff, Hraise. reflexivity.
  - unfold LinearBatchVAE.get_reconstruction_loss, bind, get_self. unfold lift at 1 2 3.
    rewrite Hilr, Hoff, Hraise. reflexivity.
Qed.

(** X15. With a likelihood name outside the three known ones,
    [LinearBatchVAE.forward] raises the ValueError after the noise is drawn,
    and [LinearBatchVAE.get_reconstruction_loss] raises it with the generator
    untouched. *)
Theorem batch_unknown_likelihood `{E : Externals}
    (st : State) (x B hx : Tensor) (n : nat) :
  ~ known_likelihood (likelihood (self_ st)) ->
  wf (self_ st) ->
  ilr (imputer x) (Psi (self_ st)) = Ok hx ->
  shape hx = [n; input_dim (self_ st)] ->
  shape B = [n; Psi_cols (self_ st)] ->
  LinearBatchVAE.forward x B st
  = (Raise (ValueError (likelihood (self_ st) ++ " has not be properly specified.")),
     after_noise st n)
  /\ LinearBatchVAE.get_reconstruction_loss x B st
     = (Raise (ValueError (likelihood (self_ st) ++ " has not be properly specified.")),
        st).
Proof.
  intros Hlk Hwf Hilr Hhx HB.
  destruct (batch_forward_run_rows st x B hx n Hwf Hilr Hhx HB)
    as (z & eta_s & eta_m & _ & _ & _ & Hf & Hr).
  rewrite Hf, Hr.
  rewrite (recon_model_loglik_unknown (after_noise st n)) by exact Hlk.
  rewrite (recon_model_loglik_unknown st) by exact Hlk.
  split; reflexivity.
Qed.

Lemma returns_and {S A : Type} (c : M S A) (P Q : A -> Prop) :
  returns c P -> returns c Q -> returns c (fun a => P a /\ Q a).
Proof.
  intros HP HQ s. destruct (HP s) as (a & s' & Hc & Ha).
  destruct (HQ s) as (a' & s'' & Hc' & Ha').
  rewrite Hc in Hc'. injection Hc' as <- <-.
  exists a, s'. auto.
Qed.

Lemma inferred_size_bound (ix : list nat) (r : nat) :
  In r ix -> (r < inferred_size ix)%nat.
Proof.
  unfold inferred_size. induction ix as [|a ix IH]; cbn [map fold_right In];
    [intros []|].
  intros [->|H]; [lia|]. specialize (IH H). lia.
Qed.

Lemma inferred_size_attained (ix : list nat) :
  ix <> [] -> exists r, In r ix /\ inferred_size ix = S r.
Proof.
  unfold inferred_size. induction ix as [|a ix IH]; [congruence|]. intros _.
  destruct ix as [|b ix].
  - exists a. cbn [map fold_right In]. split; [auto | lia].
  - destruct IH as (r & Hr & Hs); [discriminate|].
    cbn [map fold_right] in *. rewrite Hs.
    destruct (Nat.max_spec (S a) (S r)) as [[_ ->]|[_ ->]].
    + exists r. split; [right; exact Hr | reflexivity].
    + exists a. split; [left; reflexivity | reflexivity].
Qed.

Lemma more_layers_skeleton (h : nat) (b : bool) (k : nat) :
  returns (LinearVAE.more_layers h b k)
    (fun layers => skeleton layers = hidden_skeleton h k).
Proof.
  induction k as [|k IH]; cbn [LinearVAE.more_layers hidden_skeleton].
  - apply returns_ret. reflexivity.
  - eapply returns_bind; [apply new_Linear_returns|]. intros l [Hin Hout].
    eapply returns_bind; [exact IH|]. intros rest Hrest.
    apply returns_ret. cbn [skeleton map]. fold (skeleton rest).
    rewrite Hin, Hout, Hrest. reflexivity.
Qed.

Lemma initialize_skeleton (std : R) (layers : list nn.Layer) :
  returns (LinearVAE.initialize std layers)
    (fun layers' => skeleton layers' = skeleton layers).
Proof.
  induction layers as [|[l|] rest IH]; cbn [LinearVAE.initialize].
  - apply returns_ret. reflexivity.
  - eapply returns_bind; [apply normal_returns|]. intros l' [Hin Hout].
    eapply returns_bind; [exact IH|]. intros rest' Hrest.
    apply returns_ret. cbn [skeleton map]. fold (skeleton rest') (skeleton rest).
    rewrite Hin, Hout, Hrest. reflexivity.
  - eapply returns_bind; [exact IH|]. intros rest' Hrest.
    apply returns_ret. cbn [skeleton map]. fold (skeleton rest') (skeleton rest).
    rewrite Hrest. reflexivity.
Qed.

Lemma hidden_skeleton_length (h k : nat) :
  List.length (hidden_skeleton h k) = (2 * k)%nat.
Proof. induction k as [|k IH]; cbn [hidden_skeleton List.length]; lia. Qed.

Section Construction2.
Context `{E : Externals}.

Lemma encoder_returns_skeleton (d h : nat) (init_scale : R) (depth : Z) (b : bool) :
  returns
    (if (1 <? depth)%Z then
       first_encoder <- nn.new_Linear d h b ;;
       more <- LinearVAE.more_layers h b (Z.to_nat (depth - 1)) ;;
       layers <- LinearVAE.initialize init_scale (nn.ALinear first_encoder :: more) ;;
       ret (EncSequential layers)
     else
       l <- nn.new_Linear d h b ;;
       l' <- nn.normal_ init_scale l ;;
       ret (EncLinear l'))
    (fun e =>
       ((depth <= 1)%Z -> exists l, e = EncLinear l /\ sized d h l)
       /\ ((1 < depth)%Z ->
           exists layers,
             e = EncSequential layers
             /\ skeleton layers = Some (d, h) :: hidden_skeleton h (Z.to_nat (depth - 1)))).
Proof.
  destruct (Z.ltb_spec 1 depth) as [Hd|Hd].
  - eapply returns_bind; [apply new_Linear_returns|]. intros l0 [Hin Hout].
    eapply returns_bind; [apply more_layers_skeleton|]. intros more Hmore.
    eapply returns_bind; [apply initialize_skeleton|]. intros layers Hl.
    apply returns_ret. split; [lia|]. intros _. exists layers.
    split; [reflexivity|]. rewrite Hl. cbn [skeleton map]. fold (skeleton more).
    rewrite Hin, Hout, Hmore. reflexivity.
  - eapply returns_bind; [apply new_Linear_returns|]. intros l0 [Hin Hout].
    eapply returns_bind; [apply normal_returns|]. intros l [Hin' Hout'].
    apply returns_ret. split; [|lia]. intros _. exists l.
    split; [reflexivity|]. split; congruence.
Qed.

Lemma init_returns_details (input_dim_arg hidden_dim_arg : nat) (init_scale : R)
    (analytic : bool) (depth : Z) (lk : string) (basis : option coo_matrix)
    (bias_arg : bool) :
  returns (LinearVAE.__init__ input_dim_arg hidden_dim_arg init_scale analytic
             depth lk basis bias_arg)
    (fun self =>
       fresh self
       /\ ((depth <= 1)%Z ->
           exists l, encoder self = EncLinear l
                     /\ sized (inferred_size (row (basis_used input_dim_arg basis)))
                          hidden_dim_arg l)
       /\ ((1 < depth)%Z ->
           exists layers,
             encoder self = EncSequential layers
             /\ skeleton layers
                = Some (inferred_size (row (basis_used input_dim_arg basis)),
                        hidden_dim_arg)
                  :: hidden_skeleton hidden_dim_arg (Z.to_nat (depth - 1)))).
Proof.
  unfold LinearVAE.__init__. fold (basis_used input_dim_arg basis).
  eapply returns_bind; [apply returns_lift, sparse_coo_tensor_basis|].
  intros P ->. cbn [Psi_of tensor2 shape hd].
  eapply returns_bind; [apply encoder_returns_skeleton|]. intros e [He1 He2].
  eapply returns_bind; [apply new_Linear_returns|]. intros dec _.
  apply returns_ret. unfold fresh. cbn [variational_logvars log_sigma_sq encoder].
  repeat split; auto.
Qed.

End Construction2.

(** X9. For a supplied basis the stored [input_dim] is 0 when no entry is
    stored and otherwise one more than the largest stored row index; the
    declared shape of the basis is not read. *)
Theorem input_dim_from_stored_rows `{E : Externals}
    (input_dim_arg hidden_dim_arg : nat) (init_scale : R) (analytic : bool)
    (depth : Z) (lk : string) (b : coo_matrix) (bias_arg : bool) (g : Generator) :
  exists self g',
    LinearVAE.__init__ input_dim_arg hidden_dim_arg init_scale analytic depth lk
      (Some b) bias_arg g = (Ok self, g')
    /\ (forall e, In e (coo_entries b) -> (fst (fst e) < input_dim self)%nat)
    /\ (coo_entries b = [] -> input_dim self = 0%nat)
    /\ (coo_entries b <> [] ->
        exists e, In e (coo_entries b) /\ input_dim self = S (fst (fst e)))
    /\ (forall b', coo_entries b' = coo_entries b ->
        LinearVAE.__init__ input_dim_arg hidden_dim_arg init_scale analytic depth lk
          (Some b') bias_arg g = (Ok self, g')).
Proof.
  destruct (init_returns input_dim_arg hidden_dim_arg init_scale analytic depth lk
              (Some b) bias_arg g)
    as (self & g' & Hinit & _ & _ & _ & _ & _ & Hdim & _).
  cbn [basis_used] in Hdim.
  exists self, g'. split; [exact Hinit|]. split.
  { intros e He. rewrite Hdim. apply inferred_size_bound.
    unfold row. apply (in_map (fun e0 : nat * nat * R => fst (fst e0))). exact He. }
  split.
  { intros Hnil. rewrite Hdim. unfold row. rewrite Hnil. reflexivity. }
  split.
  { intros Hne. destruct (inferred_size_attained (row b)) as (r & Hr & Hs).
    - unfold row. destruct (coo_entries b); [congruence | discriminate].
    - unfold row in Hr. apply in_map_iff in Hr. destruct Hr as (e & <- & He).
      exists e. split; [exact He | congruence]. }
  intros b' Hb'. rewrite <- Hinit.
  unfold LinearVAE.__init__, row, col, data. rewrite Hb'. reflexivity.
Qed.

(** X10. With [encoder_depth] at most 1 (0 and negative values included) the
    encoder is one linear layer from [input_dim] to [hidden_dim]; above 1 it
    is a sequence of 2 encoder_depth - 1 layers: that linear layer, then
    encoder_depth - 1 times a softplus and a linear layer on [hidden_dim]
    coordinates. *)
Theorem encoder_depth_layers `{E : Externals}
    (input_dim_arg hidden_dim_arg : nat) (init_scale : R) (analytic : bool)
    (depth : Z) (lk : string) (basis : option coo_matrix) (bias_arg : bool)
    (g : Generator) :
  exists self g',
    LinearVAE.__init__ input_dim_arg hidden_dim_arg init_scale analytic depth lk
      basis bias_arg g = (Ok self, g')
    /\ ((depth <= 1)%Z ->
        exists l, encoder self = EncLinear l
                  /\ nn.in_features l = input_dim self
                  /\ nn.out_features l = hidden_dim_arg)
    /\ ((1 < depth)%Z ->
        exists layers,
          encoder self = EncSequential layers
          /\ skeleton layers
             = Some (input_dim self, hidden_dim_arg)
               :: hidden_skeleton hidden_dim_arg (Z.to_nat (depth - 1))
          /\ List.length layers = Z.to_nat (2 * depth - 1)).
Proof.
  destruct (returns_and _ _ _
              (init_returns input_dim_arg hidden_dim_arg init_scale analytic depth lk
                 basis bias_arg)
              (init_returns_details input_dim_arg hidden_dim_arg init_scale analytic
                 depth lk basis bias_arg) g)
    as (self & g' & Hinit & (_ & _ & _ & _ & _ & Hdim & _) & _ & H1 & H2).
  exists self, g'. split; [exact Hinit|]. rewrite Hdim. split.
  - intros Hd. destruct (H1 Hd) as (l & Hl & Hin & Hout). exists l. auto.
  - intros Hd. destruct (H2 Hd) as (layers & Hl & Hs). exists layers.
    split; [exact Hl|]. split; [exact Hs|].
    assert (Hlen : List.length (skeleton layers) = List.length layers)
      by (unfold skeleton; apply length_map).
    rewrite <- Hlen, Hs. cbn [List.length]. rewrite hidden_skeleton_length. lia.
Qed.

(** X11. The constructor of [LinearBatchVAE] succeeds with
    [use_analytic_elbo] false whatever it is given; the module is well formed
    and starts with all log-variances and [log_sigma_sq] at 0, so that its KL
    term is half the mean squared norm of the latent mean. *)
Theorem batch_constructor_samples `{E : Externals}
    (input_dim_arg hidden_dim_arg : nat) (init_scale : R)
    (depth : Z) (lk : string) (basis : option coo_matrix) (bias_arg : bool)
    (g : Generator) :
  exists self g',
    LinearBatchVAE.__init__ input_dim_arg hidden_dim_arg init_scale depth lk
      basis bias_arg g = (Ok self, g')
    /\ use_analytic_elbo self = false
    /\ wf self
    /\ (forall k, variational_logvars self k = 0)
    /\ log_sigma_sq self = 0
    /\ (forall z n,
          kl_term self z n
          = big_sum n (fun i =>
              big_sum (hidden_dim self) (fun k => 0.5 * (at2 z i k * at2 z i k)))
            / INR n).
Proof.
  unfold LinearBatchVAE.__init__.
  destruct (returns_and _ _ _
              (init_returns input_dim_arg hidden_dim_arg init_scale false depth lk
                 basis bias_arg)
              (init_returns_details input_dim_arg hidden_dim_arg init_scale false
                 depth lk basis bias_arg) g)
    as (self & g' & Hinit & (_ & _ & _ & Hmode & _ & _ & Hwf & _) & (Hlv & Hls) & _).
  exists self, g'. repeat (split; [assumption|]).
  intros z n. unfold kl_term, Rdiv. apply Rmult_eq_compat_r.
  apply big_sum_ext. intros i _. apply big_sum_ext. intros k _.
  unfold kl_quantity. rewrite Hlv, exp_0. ring.
Qed.

(** ** The further theorems at the toy modules *)

Lemma pair_wf (lk : string) : wf (pair_module lk).
Proof. unfold wf. cbn. repeat split; reflexivity. Defined.




Lemma forward_splits_sampling_witness :
  exists z_mean,
    LinearVAE.encode (E := toy_externals) (one_sample 3) (toy_state "gaussian" false)
    = (Ok z_mean, toy_state "gaussian" false)
    /\ 0 <= kl_term (toy_module "gaussian" false) z_mean 1.
Proof.
  destruct (forward_splits_sampling (E := toy_externals) (toy_state "gaussian" false)
              (one_sample 3) _ 1 (toy_wf _ _) eq_refl (toy_ilr 3) eq_refl Nat.lt_0_1)
    as (z & Hz & Hk & _).
  exists z. split; assumption.
Defined.

Lemma two_is_not_one : 2%nat <> 1%nat.
Proof. discriminate. Defined.

Lemma gaussian_needs_input_dim_columns_witness :
  LinearVAE.recon_model_loglik (E := toy_externals) (pair_sample 3 1) (one_sample 0)
    (mkState (pair_module "gaussian") counting)
  = (Raise shape_error, mkState (pair_module "gaussian") counting).
Proof.
  exact (proj1 (gaussian_needs_input_dim_columns (E := toy_externals)
                  (mkState (pair_module "gaussian") counting) (pair_sample 3 1) 1 2
                  eq_refl (pair_wf _) eq_refl two_is_not_one)
           (one_sample 0)).
Defined.



Lemma ilr_width_mismatch_witness :
  LinearVAE.forward (E := toy_externals) (one_sample 3)
    (mkState (pair_module "gaussian") counting)
  = (Raise shape_error, mkState (pair_module "gaussian") counting).
Proof.
  exact (proj1 (proj2 (ilr_width_mismatch (E := toy_externals)
                         (mkState (pair_module "gaussian") counting) (one_sample 3)
                         _ toy_encoder 1 2 eq_refl eq_refl eq_refl two_is_not_one))).
Defined.

Lemma batch_latent_mean_vs_encode_witness :
  exists ze zb,
    LinearBatchVAE.encode (E := toy_externals) (one_sample 3) (toy_state "gaussian" false)
    = (Ok ze, toy_state "gaussian" false)
    /\ batch_z_mean (E := toy_externals) (one_sample 3) (one_sample 1)
         (toy_state "gaussian" false)
       = (Ok zb, toy_state "gaussian" false)
    /\ at2 zb 0 0
       = at2 ze 0 0
         - big_sum 1 (fun j =>
             big_sum 1 (fun c => at2 toy_Psi j c * at2 (one_sample 1) 0 c) * 2).
Proof.
  destruct (batch_latent_mean_vs_encode (E := toy_externals)
              (toy_state "gaussian" false) (one_sample 3) (one_sample 1) _ 1
              toy_encoder (toy_wf _ _) eq_refl (toy_ilr 3) eq_refl eq_refl)
    as (ze & zb & He & Hb & Hd & _).
  exists ze, zb. split; [exact He|]. split; [exact Hb|].
  exact (Hd 0%nat 0%nat Nat.lt_0_1 Nat.lt_0_1).
Defined.


Lemma batch_matrix_rows_mismatch_witness :
  exists msg,
    LinearBatchVAE.forward (E := toy_externals) (one_sample 3) (two_samples 1 0)
      (toy_state "gaussian" false)
    = (Raise (RuntimeError msg), toy_state "gaussian" false).
Proof.
  destruct (batch_matrix_rows_mismatch (E := toy_externals) (toy_state "gaussian" false)
              (one_sample 3) (two_samples 1 0) _ 1 2 (toy_wf _ _) (toy_ilr 3)
              eq_refl eq_refl two_is_not_one two_is_not_one)
    as (msg & Hf & _).
  exists msg. exact Hf.
Defined.

Lemma batch_unknown_likelihood_witness :
  LinearBatchVAE.get_reconstruction_loss (E := toy_externals) (one_sample 3)
    (one_sample 1) (toy_state "poisson" false)
  = (Raise (ValueError "poisson has not be properly specified."),
     toy_state "poisson" false).
Proof.
  exact (proj2 (batch_unknown_likelihood (E := toy_externals) (toy_state "poisson" false)
                  (one_sample 3) (one_sample 1) _ 1 poisson_unknown (toy_wf _ _)
                  (toy_ilr 3) eq_refl eq_refl)).
Defined.
